(** * slam3d: point-cloud sensor and orientation-prior edge

    A shallow embedding of

    - [slam3d/sensor/pcl/PointCloudSensor.cpp] (the point-cloud sensor:
      preprocessing, scan registration, constraint creation, map building),
    - [src/PointCloudSensor.cpp] (its predecessor, kept in [Module Legacy]),
    - [slam3d/solver/g2o/edge_orientation_prior.cpp] (the unary orientation
      prior edge handed to g2o).

    Conventions of the embedding.

    - Scalars.  The C++ code computes in [double] (poses, covariances) and
      [float] (points, registration).  Here every scalar is an exact rational
      [Qc]: rounding is not modelled, the algebraic shape of every formula
      is.
    - Exceptions and library calls.  Functions that throw, or that call into
      PCL, run in the monad [M]: a computation yields the list of library
      calls it made (in call order) and either a value or the exception
      thrown.
    - External libraries.  The PCL filters and registration algorithms, the
      Eigen rotation-matrix-to-quaternion conversion and the Eigen 6x6
      inverse are parameters of the development.  The Eigen operations that
      are polynomial or rational in their arguments (isometry product and
      inverse, quaternion product, conjugate and inverse, quaternion to
      rotation matrix) are written out.
    - Logging through [mLogger] is not modelled.

    The file has two parts: the embedding (definitions only), then the
    properties proved about it. *)

From Stdlib Require Import List ZArith NArith QArith Qcanon Qround String Bool Lia Permutation.
Import ListNotations.

Set Implicit Arguments.

(** ** Scalars *)

Module Scalars.

Definition Scalar := Qc.

Definition of_Z (z : Z) : Scalar := Q2Qc (inject_Z z).

(** [a < b] and [a > b] on C++ floating-point values, as booleans. *)
Definition ltb (a b : Scalar) : bool :=
  match (a ?= b)%Qc with Lt => true | _ => false end.

Definition gtb (a b : Scalar) : bool := ltb b a.

Definition eqb (a b : Scalar) : bool := Qeq_bool (this a) (this b).

End Scalars.

Import Scalars.
Local Open Scope Qc_scope.

(** ** Eigen geometry: vectors, rotation matrices, isometries *)

Module Geometry.

(** [Eigen::Vector3]; also the coordinates of a [pcl::PointXYZ]. *)
Record Vector3 := mkVector3 { vx : Scalar; vy : Scalar; vz : Scalar }.

(** [Eigen::Matrix3], by rows. *)
Record Matrix3 := mkMatrix3 { row0 : Vector3; row1 : Vector3; row2 : Vector3 }.

Definition dot (a b : Vector3) : Scalar :=
  vx a * vx b + vy a * vy b + vz a * vz b.

Definition vadd (a b : Vector3) : Vector3 :=
  mkVector3 (vx a + vx b) (vy a + vy b) (vz a + vz b).

Definition vopp (a : Vector3) : Vector3 :=
  mkVector3 (- vx a) (- vy a) (- vz a).

Definition col0 (m : Matrix3) := mkVector3 (vx (row0 m)) (vx (row1 m)) (vx (row2 m)).
Definition col1 (m : Matrix3) := mkVector3 (vy (row0 m)) (vy (row1 m)) (vy (row2 m)).
Definition col2 (m : Matrix3) := mkVector3 (vz (row0 m)) (vz (row1 m)) (vz (row2 m)).

Definition transpose (m : Matrix3) : Matrix3 := mkMatrix3 (col0 m) (col1 m) (col2 m).

Definition mul_vec (m : Matrix3) (v : Vector3) : Vector3 :=
  mkVector3 (dot (row0 m) v) (dot (row1 m) v) (dot (row2 m) v).

Definition mul_mat (a b : Matrix3) : Matrix3 :=
  let r (ra : Vector3) := mkVector3 (dot ra (col0 b)) (dot ra (col1 b)) (dot ra (col2 b)) in
  mkMatrix3 (r (row0 a)) (r (row1 a)) (r (row2 a)).

Definition Matrix3_Identity : Matrix3 :=
  mkMatrix3 (mkVector3 1 0 0) (mkVector3 0 1 0) (mkVector3 0 0 1).

Definition Vector3_Zero : Vector3 := mkVector3 0 0 0.

(** [slam3d::Transform], an [Eigen::Isometry3d]: the affine map
    [p |-> linear * p + translation]. *)
Record Transform := mkTransform { linear : Matrix3; translation : Vector3 }.

Definition Identity : Transform := mkTransform Matrix3_Identity Vector3_Zero.

(** [a * b] on isometries. *)
Definition compose (a b : Transform) : Transform :=
  mkTransform (mul_mat (linear a) (linear b))
              (vadd (mul_vec (linear a) (translation b)) (translation a)).

(** [t.inverse()] in [Isometry] mode: the linear part is transposed, not
    inverted. *)
Definition inverse (t : Transform) : Transform :=
  let lt := transpose (linear t) in
  mkTransform lt (vopp (mul_vec lt (translation t))).

(** The isometry applied to a point. *)
Definition apply (t : Transform) (p : Vector3) : Vector3 :=
  vadd (mul_vec (linear t) p) (translation t).

Definition translate (x y z : Z) : Transform :=
  mkTransform Matrix3_Identity (mkVector3 (of_Z x) (of_Z y) (of_Z z)).

End Geometry.

Import Geometry.

Declare Scope transform_scope.
Delimit Scope transform_scope with tf.
Infix "*" := compose : transform_scope.

(** ** Point clouds *)

Module Cloud.

(** [slam3d::PointType] is [pcl::PointXYZ]. *)
Definition PointType := Vector3.

(** [slam3d::PointCloud], a [pcl::PointCloud<PointType>]: its points in
    storage order.  Header, width, height and density flag are not
    modelled. *)
Definition PointCloud := list PointType.

(** [pcl::transformPointCloud(in, out, tf.matrix())]. *)
Definition transformPointCloud (cloud : PointCloud) (tf : Transform) : PointCloud :=
  map (apply tf) cloud.

(** [a += b] on point clouds appends the points of [b]. *)
Definition concatenate (a b : PointCloud) : PointCloud := a ++ b.

Definition origin : PointType := Vector3_Zero.

End Cloud.

Import Cloud.

(** ** Eigen quaternions *)

Module Quaternions.

(** [Eigen::Quaternion], coefficients [w + x i + y j + z k]. *)
Record Quaternion := mkQuaternion { qw : Scalar; qx : Scalar; qy : Scalar; qz : Scalar }.

Definition Quaternion_Identity : Quaternion := mkQuaternion 1 0 0 0.

(** [a * b], the Hamilton product as Eigen computes it. *)
Definition qmul (a b : Quaternion) : Quaternion :=
  mkQuaternion
    (qw a * qw b - qx a * qx b - qy a * qy b - qz a * qz b)
    (qw a * qx b + qx a * qw b + qy a * qz b - qz a * qy b)
    (qw a * qy b + qy a * qw b + qz a * qx b - qx a * qz b)
    (qw a * qz b + qz a * qw b + qx a * qy b - qy a * qx b).

Definition conjugate (q : Quaternion) : Quaternion :=
  mkQuaternion (qw q) (- qx q) (- qy q) (- qz q).

Definition squaredNorm (q : Quaternion) : Scalar :=
  qw q * qw q + qx q * qx q + qy q * qy q + qz q * qz q.

(** [q.inverse()]: the conjugate divided by the squared norm, and the zero
    quaternion when the squared norm is not positive. *)
Definition qinverse (q : Quaternion) : Quaternion :=
  let n2 := squaredNorm q in
  if gtb n2 0
  then mkQuaternion (qw q / n2) (- qx q / n2) (- qy q / n2) (- qz q / n2)
  else mkQuaternion 0 0 0 0.

(** [q.vec()], the coefficients [x], [y], [z]. *)
Definition vec (q : Quaternion) : Vector3 := mkVector3 (qx q) (qy q) (qz q).

(** [q.toRotationMatrix()]. *)
Definition toRotationMatrix (q : Quaternion) : Matrix3 :=
  let two := of_Z 2 in
  let tx := two * qx q in
  let ty := two * qy q in
  let tz := two * qz q in
  let twx := tx * qw q in
  let twy := ty * qw q in
  let twz := tz * qw q in
  let txx := tx * qx q in
  let txy := ty * qx q in
  let txz := tz * qx q in
  let tyy := ty * qy q in
  let tyz := tz * qy q in
  let tzz := tz * qz q in
  mkMatrix3
    (mkVector3 (1 - (tyy + tzz)) (txy - twz) (txz + twy))
    (mkVector3 (txy + twz) (1 - (txx + tzz)) (tyz - twx))
    (mkVector3 (txz - twy) (tyz + twx) (1 - (txx + tyy))).

(** [t * q] for an isometry [t] and a rotation [q]: the linear part is
    multiplied on the right by the rotation matrix of [q], the translation
    is kept. *)
Definition rotate (t : Transform) (q : Quaternion) : Transform :=
  mkTransform (mul_mat (linear t) (toRotationMatrix q)) (translation t).

End Quaternions.

Import Quaternions.

(** ** Dense square matrices ([slam3d::Covariance<N>]) *)

Module Matrices.

(** An [Eigen::Matrix<ScalarType,N,N>], as the list of its rows. *)
Definition Matrix := list (list Scalar).

Definition unit_row (n i : nat) : list Scalar :=
  map (fun j => if Nat.eqb i j then 1 else 0) (seq 0 n).

(** [Covariance<N>::Identity()]. *)
Definition Matrix_Identity (n : nat) : Matrix :=
  map (unit_row n) (seq 0 n).

(** [m * s] for a scalar [s]. *)
Definition Matrix_scale (m : Matrix) (s : Scalar) : Matrix :=
  map (map (fun e => e * s)) m.

End Matrices.

Import Matrices.

(** ** Measurements, vertices, constraints, configuration

    These classes are declared in headers outside the available sources
    ([PointCloudSensor.hpp], the core types); each is given the members
    that the modelled code reads or the constructor arguments it passes. *)

Module Types.

(** The part of [slam3d::Measurement] shared by all measurement classes. *)
Record MeasurementBase := mkMeasurementBase {
  mRobotName : string;
  mSensorName : string;
  mSensorPose : Transform
}.

(** [slam3d::PointCloudMeasurement]. *)
Record PointCloudMeasurement := mkPointCloudMeasurement {
  pc_base : MeasurementBase;
  mPointCloud : PointCloud
}.

(** A [Measurement::Ptr] (never null here): a point-cloud measurement or an
    object of any other measurement class. *)
Inductive Measurement :=
| IsPointCloud (m : PointCloudMeasurement)
| IsOther (base : MeasurementBase).

Definition base_of (m : Measurement) : MeasurementBase :=
  match m with
  | IsPointCloud pc => pc_base pc
  | IsOther b => b
  end.

Definition getSensorPose (m : Measurement) : Transform := mSensorPose (base_of m).

(** Modelled from the spec: [Measurement::getInverseSensorPose] is declared
    in a header outside the available sources; the spec writes its value as
    [sensor_pose^-1]. *)
Definition getInverseSensorPose (m : Measurement) : Transform :=
  inverse (getSensorPose m).

Definition getPointCloud (m : PointCloudMeasurement) : PointCloud := mPointCloud m.

(** [boost::dynamic_pointer_cast<PointCloudMeasurement>(m)]; [None] is the
    null pointer. *)
Definition dynamic_pointer_cast (m : Measurement) : option PointCloudMeasurement :=
  match m with
  | IsPointCloud pc => Some pc
  | IsOther _ => None
  end.

(** [slam3d::VertexObject]: a label, the corrected pose and the
    measurement, as in [GraphMapper.hpp]. *)
Record VertexObject := mkVertexObject {
  label : string;
  corrected_pose : Transform;
  measurement : Measurement
}.

Definition VertexObjectList := list VertexObject.

(** [slam3d::SE3Constraint]: the three arguments of
    [new SE3Constraint(name, transform, matrix)], in order.  The matrix
    that [createConstraint] passes is the inverse of its covariance,
    hence the name of the third field. *)
Record SE3Constraint := mkSE3Constraint {
  constraint_sensor : string;
  constraint_transform : Transform;
  constraint_information : Matrix
}.

Inductive RegistrationAlgorithm := GICP | NDT.

(** [slam3d::RegistrationParameters]. *)
Record RegistrationParameters := mkRegistrationParameters {
  registration_algorithm : RegistrationAlgorithm;
  point_cloud_density : Scalar;
  max_correspondence_distance : Scalar;
  maximum_iterations : Z;
  max_fitness_score : Scalar;
  transformation_epsilon : Scalar;
  euclidean_fitness_epsilon : Scalar;
  correspondence_randomness : Z;
  maximum_optimizer_iterations : Z;
  rotation_epsilon : Scalar;
  outlier_ratio : Scalar;
  step_size : Scalar;
  resolution : Scalar
}.

(** Why a registration was rejected; stands for the message of
    [NoMatch]. *)
Inductive NoMatchReason :=
| TooFewPoints
| ICPFailed (score max_score : Scalar)
| NDTFailed (score max_score : Scalar)
| Unspecified.

Inductive Exception :=
| BadMeasurementType
| NoMatch (reason : NoMatchReason).

End Types.

Import Types.

(** ** The PCL and Eigen interfaces *)

Module Libraries.

(** What the setters of [GeneralizedIterativeClosestPoint] received. *)
Record GICPSettings := mkGICPSettings {
  gicp_MaxCorrespondenceDistance : Scalar;
  gicp_MaximumIterations : Z;
  gicp_TransformationEpsilon : Scalar;
  gicp_EuclideanFitnessEpsilon : Scalar;
  gicp_CorrespondenceRandomness : Z;
  gicp_MaximumOptimizerIterations : Z;
  gicp_RotationEpsilon : Scalar
}.

(** What the setters of [NormalDistributionsTransform] received. *)
Record NDTSettings := mkNDTSettings {
  ndt_MaxCorrespondenceDistance : Scalar;
  ndt_MaximumIterations : Z;
  ndt_TransformationEpsilon : Scalar;
  ndt_EuclideanFitnessEpsilon : Scalar;
  ndt_OutlierRatio : Scalar;
  ndt_StepSize : Scalar;
  ndt_Resolution : Scalar
}.

(** The registration object after [align]: what [hasConverged()],
    [getFitnessScore(max_range)] and [getFinalTransformation()] answer. *)
Record Registration := mkRegistration {
  hasConverged : bool;
  getFitnessScore : Scalar -> Scalar;
  getFinalTransformation : Transform
}.

(** The Point Cloud Library as this code uses it.  [align] without a guess
    argument is [GICP_align _ _ _ None]. *)
Class PCL := {
  (** [PCL_VERSION_COMPARE(<, 1, 8, 1)] *)
  PCL_VERSION_before_1_8_1 : bool;
  (** [VoxelGrid::filter] with cubic leaf [leaf] *)
  VoxelGrid_filter : forall (leaf : Scalar) (input : PointCloud), PointCloud;
  (** [RadiusOutlierRemoval::filter] *)
  RadiusOutlierRemoval_filter :
    forall (radius : Scalar) (min_neighbors : N) (input : PointCloud), PointCloud;
  GICP_align :
    forall (settings : GICPSettings) (input_source input_target : PointCloud)
           (guess : option Transform), Registration;
  NDT_align :
    forall (settings : NDTSettings) (input_source input_target : PointCloud)
           (guess : Transform), Registration
}.

(** The two Eigen operations that are not written out in this file. *)
Class Eigen := {
  (** [m.inverse()] on a dense square matrix *)
  Matrix_inverse : Matrix -> Matrix;
  (** [Quaternion(m)] for a rotation matrix [m] *)
  Quaternion_of_Matrix3 : Matrix3 -> Quaternion
}.

(** One call into PCL, with the arguments it received. *)
Inductive LibraryCall :=
| CallVoxelGrid (leaf : Scalar) (input : PointCloud)
| CallRadiusOutlierRemoval (radius : Scalar) (min_neighbors : N) (input : PointCloud)
| CallGICP (settings : GICPSettings) (input_source input_target : PointCloud)
           (guess : option Transform)
| CallNDT (settings : NDTSettings) (input_source input_target : PointCloud)
          (guess : Transform).

End Libraries.

Import Libraries.

(** ** The monad of library calls and exceptions *)

Module Effects.

Inductive Result (A : Type) :=
| Returns (a : A)
| Throws (e : Exception).

Arguments Returns {A} a.
Arguments Throws {A} e.

(** A computation: the PCL calls made, in order, and how it ended. *)
Definition M (A : Type) : Type := list LibraryCall * Result A.

Definition calls {A} (m : M A) : list LibraryCall := fst m.
Definition outcome {A} (m : M A) : Result A := snd m.

Definition ret {A} (a : A) : M A := ([], Returns a).

Definition throw {A} (e : Exception) : M A := ([], Throws e).

Definition bind {A B} (m : M A) (k : A -> M B) : M B :=
  match outcome m with
  | Returns a => (calls m ++ calls (k a), outcome (k a))
  | Throws e => (calls m, Throws e)
  end.

(** A library call: logged, then answered by the library. *)
Definition call {A} (c : LibraryCall) (answer : A) : M A := ([c], Returns answer).

Definition succeeds {A} (m : M A) : Prop := exists a, outcome m = Returns a.

Definition fails_with {A} (m : M A) (e : Exception) : Prop := outcome m = Throws e.

End Effects.

Import Effects.

Declare Scope monad_scope.
Delimit Scope monad_scope with monad.
Notation "x <- c1 ;; c2" := (bind c1 (fun x => c2))
  (at level 61, c1 at next level, right associativity) : monad_scope.
Notation "c1 ;;; c2" := (bind c1 (fun _ => c2))
  (at level 61, right associativity) : monad_scope.
Local Open Scope monad_scope.

(** ** [slam3d/sensor/pcl/PointCloudSensor.cpp] *)

(** The sensor object: the members the modelled methods read. *)
Record PointCloudSensor := mkPointCloudSensor {
  mName : string;
  mCovarianceScale : Scalar;
  mCoarseConfiguration : RegistrationParameters;
  mFineConfiguration : RegistrationParameters;
  mMapResolution : Scalar;
  mMapOutlierRadius : Scalar;
  mMapOutlierNeighbors : N
}.

(** The constructor body: the map parameters get their defaults
    [0.1], [0.2] and [3]; the other members are initialised outside the
    body and are arguments here. *)
Definition PointCloudSensor_new (n : string) (scale : Scalar)
    (coarse fine : RegistrationParameters) : PointCloudSensor :=
  {| mName := n;
     mCovarianceScale := scale;
     mCoarseConfiguration := coarse;
     mFineConfiguration := fine;
     mMapResolution := Q2Qc (1 # 10);
     mMapOutlierRadius := Q2Qc (2 # 10);
     mMapOutlierNeighbors := 3%N |}.

Definition gicp_settings (config : RegistrationParameters) : GICPSettings :=
  {| gicp_MaxCorrespondenceDistance := max_correspondence_distance config;
     gicp_MaximumIterations := maximum_iterations config;
     gicp_TransformationEpsilon := transformation_epsilon config;
     gicp_EuclideanFitnessEpsilon := euclidean_fitness_epsilon config;
     gicp_CorrespondenceRandomness := correspondence_randomness config;
     gicp_MaximumOptimizerIterations := maximum_optimizer_iterations config;
     gicp_RotationEpsilon := rotation_epsilon config |}.

Definition ndt_settings (config : RegistrationParameters) : NDTSettings :=
  {| ndt_MaxCorrespondenceDistance := max_correspondence_distance config;
     ndt_MaximumIterations := maximum_iterations config;
     ndt_TransformationEpsilon := transformation_epsilon config;
     ndt_EuclideanFitnessEpsilon := euclidean_fitness_epsilon config;
     ndt_OutlierRatio := outlier_ratio config;
     ndt_StepSize := step_size config;
     ndt_Resolution := resolution config |}.

Section Sensor.

Context {pcl : PCL} {eigen : Eigen}.

(** [in->size() > 0] guards the filter: an empty cloud never reaches PCL. *)
Definition downsample (input : PointCloud) (leaf_size : Scalar) : M PointCloud :=
  match input with
  | [] => ret []
  | _ :: _ => call (CallVoxelGrid leaf_size input) (VoxelGrid_filter leaf_size input)
  end.

Definition removeOutliers (input : PointCloud) (radius : Scalar) (min_neighbors : N)
    : M PointCloud :=
  match input with
  | [] => ret []
  | _ :: _ =>
      call (CallRadiusOutlierRemoval radius min_neighbors input)
           (RadiusOutlierRemoval_filter radius min_neighbors input)
  end.

Definition transform (source : PointCloud) (tf : Transform) : PointCloud :=
  transformPointCloud source tf.

(** The loop of [getAccumulatedCloud] over the vertices still to visit,
    [accu] being the cloud accumulated so far. *)
Fixpoint accumulate_loop (visit : list VertexObject) (accu : PointCloud) : M PointCloud :=
  match visit with
  | [] => ret accu
  | v :: rest =>
      match dynamic_pointer_cast (measurement v) with
      | None => throw BadMeasurementType
      | Some pc =>
          let tempCloud :=
            transform (getPointCloud pc)
                      (corrected_pose v * getSensorPose (measurement v))%tf in
          accumulate_loop rest (concatenate accu tempCloud)
      end
  end.

(** The vertices are visited from [rbegin()] to [rend()], last to first. *)
Definition getAccumulatedCloud (vertices : VertexObjectList) : M PointCloud :=
  accumulate_loop (rev vertices) [].

Definition doICP (source target : PointCloud) (guess : Transform)
    (config : RegistrationParameters) : M Transform :=
  let settings := gicp_settings config in
  icp <-
    (if PCL_VERSION_before_1_8_1
     then
       let shifted_target := transformPointCloud target guess in
       call (CallGICP settings shifted_target source None)
            (GICP_align settings shifted_target source None)
     else
       call (CallGICP settings target source (Some guess))
            (GICP_align settings target source (Some guess))) ;;
  let score := getFitnessScore icp (max_correspondence_distance config) in
  if negb (hasConverged icp) || gtb score (max_fitness_score config)
  then throw (NoMatch (ICPFailed score (max_fitness_score config)))
  else
    let icp_result := getFinalTransformation icp in
    ret (if PCL_VERSION_before_1_8_1 then (icp_result * guess)%tf else icp_result).

Definition doNDT (source target : PointCloud) (guess : Transform)
    (config : RegistrationParameters) : M Transform :=
  let settings := ndt_settings config in
  ndt <- call (CallNDT settings target source guess)
              (NDT_align settings target source guess) ;;
  let score := getFitnessScore ndt (max_correspondence_distance config) in
  if negb (hasConverged ndt) || gtb score (max_fitness_score config)
  then throw (NoMatch (NDTFailed score (max_fitness_score config)))
  else ret (getFinalTransformation ndt).

(** The two clouds declared inside the [if] block shadow the outer
    [filtered_source] and [filtered_target] and go out of scope at its
    closing brace: [downsample] runs, and the outer variables keep the
    clouds of the measurements. *)
Definition align (source target : PointCloudMeasurement) (guess : Transform)
    (config : RegistrationParameters) : M Transform :=
  let filtered_source := getPointCloud source in
  let filtered_target := getPointCloud target in
  (if gtb (point_cloud_density config) 0
   then
     inner_filtered_source <- downsample (getPointCloud source) (point_cloud_density config) ;;
     inner_filtered_target <- downsample (getPointCloud target) (point_cloud_density config) ;;
     ret tt
   else ret tt) ;;;
  if Nat.ltb (List.length filtered_target) 100 || Nat.ltb (List.length filtered_source) 100
  then throw (NoMatch TooFewPoints)
  else
    match registration_algorithm config with
    | GICP => doICP filtered_source filtered_target guess config
    | NDT => doNDT filtered_source filtered_target guess config
    end.

Definition createConstraint (sensor : PointCloudSensor) (source target : Measurement)
    (odometry : Transform) (loop : bool) : M SE3Constraint :=
  let guess := (getInverseSensorPose source * odometry * getSensorPose target)%tf in
  match dynamic_pointer_cast source, dynamic_pointer_cast target with
  | Some sourceCloud, Some targetCloud =>
      guess <-
        (if loop
         then align sourceCloud targetCloud guess (mCoarseConfiguration sensor)
         else ret guess) ;;
      icp_result <- align sourceCloud targetCloud guess (mFineConfiguration sensor) ;;
      let transform := (getSensorPose source * icp_result * getInverseSensorPose target)%tf in
      let covariance := Matrix_scale (Matrix_Identity 6) (mCovarianceScale sensor) in
      ret (mkSE3Constraint (mName sensor) transform (Matrix_inverse covariance))
  | _, _ => throw BadMeasurementType
  end.

Definition buildMap (sensor : PointCloudSensor) (vertices : VertexObjectList)
    : M PointCloud :=
  accu <- getAccumulatedCloud vertices ;;
  cleaned <- removeOutliers accu (mMapOutlierRadius sensor) (mMapOutlierNeighbors sensor) ;;
  downsample cleaned (mMapResolution sensor).

End Sensor.

(** ** [src/PointCloudSensor.cpp], the earlier version of the sensor *)

Module Legacy.

(** [slam3d::TransformWithCovariance]. *)
Record TransformWithCovariance := mkTransformWithCovariance {
  twc_transform : Transform;
  twc_covariance : Matrix
}.

(** The members read by [calculateTransform].  [GICPConfiguration] has the
    GICP fields of [RegistrationParameters], which stands for it here. *)
Record PointCloudSensor := mkPointCloudSensor {
  mCoarseConfiguration : RegistrationParameters;
  mFineConfiguration : RegistrationParameters
}.

(** [std::numeric_limits<double>::max()], the default [max_range] of
    [getFitnessScore()]. *)
Definition numeric_limits_double_max : Scalar :=
  of_Z ((2 ^ 53 - 1) * 2 ^ 971).

Section Sensor.

Context {pcl : PCL}.

(** No guard on the size of the input in this version. *)
Definition downsample (input : PointCloud) (leaf_size : Scalar) : M PointCloud :=
  call (CallVoxelGrid leaf_size input) (VoxelGrid_filter leaf_size input).

Definition removeOutliers (input : PointCloud) (radius : Scalar) (min_neighbors : N)
    : M PointCloud :=
  call (CallRadiusOutlierRemoval radius min_neighbors input)
       (RadiusOutlierRemoval_filter radius min_neighbors input).

Definition calculateTransform (sensor : PointCloudSensor) (source target : Measurement)
    (odometry : Transform) (coarse : bool) : M TransformWithCovariance :=
  let guess := (getInverseSensorPose source * odometry * getSensorPose target)%tf in
  match dynamic_pointer_cast source, dynamic_pointer_cast target with
  | Some sourceCloud, Some targetCloud =>
      let config :=
        if coarse then mCoarseConfiguration sensor else mFineConfiguration sensor in
      filtered_source <- downsample (getPointCloud sourceCloud) (point_cloud_density config) ;;
      filtered_target <- downsample (getPointCloud targetCloud) (point_cloud_density config) ;;
      let settings := gicp_settings config in
      let shifted_target := transformPointCloud filtered_target guess in
      icp <- call (CallGICP settings shifted_target filtered_source None)
                  (GICP_align settings shifted_target filtered_source None) ;;
      if negb (hasConverged icp)
         || gtb (getFitnessScore icp numeric_limits_double_max) (max_fitness_score config)
      then throw (NoMatch Unspecified)
      else
        let icp_result := (getFinalTransformation icp * guess)%tf in
        ret {| twc_transform :=
                 (getSensorPose source * icp_result * getInverseSensorPose target)%tf;
               twc_covariance := Matrix_Identity 6 |}
  | _, _ => throw BadMeasurementType
  end.

(** Same loop as in the later version. *)
Definition getAccumulatedCloud (vertices : VertexObjectList) : M PointCloud :=
  accumulate_loop (rev vertices) [].

End Sensor.

End Legacy.

(** ** [slam3d/solver/g2o/edge_orientation_prior.cpp] *)

Module G2o.

(** [g2o::VertexSE3]: its estimate is an [Isometry3]. *)
Record VertexSE3 := mkVertexSE3 { estimate : Transform }.

(** [g2o::EdgeOrientationPrior], a
    [BaseUnaryEdge<3, Quaternion, VertexSE3>]. *)
Record EdgeOrientationPrior := mkEdgeOrientationPrior {
  _measurement : Quaternion;
  _information : Matrix3;
  _sensor_pose : Transform;
  _error : Vector3;
  _vertices : list VertexSE3
}.

(** The constructor body, run on the object [base] left by the base-class
    constructor. *)
Definition EdgeOrientationPrior_new (base : EdgeOrientationPrior)
    (m : Quaternion) (s : Transform) : EdgeOrientationPrior :=
  {| _measurement := m;
     _information := Matrix3_Identity;
     _sensor_pose := s;
     _error := _error base;
     _vertices := _vertices base |}.

(** [setVertex(0, v)] of the base class. *)
Definition setVertex0 (e : EdgeOrientationPrior) (v : VertexSE3) : EdgeOrientationPrior :=
  {| _measurement := _measurement e;
     _information := _information e;
     _sensor_pose := _sensor_pose e;
     _error := _error e;
     _vertices := [v] |}.

Section Edge.

Context {eigen : Eigen}.

(** [computeError] updates [_error]; [None] when no vertex is attached
    (the C++ code would dereference an invalid pointer). *)
Definition computeError (e : EdgeOrientationPrior) : option EdgeOrientationPrior :=
  match _vertices e with
  | [] => None
  | vertex :: _ =>
      let current_state := Quaternion_of_Matrix3 (linear (estimate vertex)) in
      let exp := rotate (inverse (_sensor_pose e)) (_measurement e) in
      let expected_state := Quaternion_of_Matrix3 (linear exp) in
      let err := qmul (qinverse expected_state) current_state in
      Some {| _measurement := _measurement e;
              _information := _information e;
              _sensor_pose := _sensor_pose e;
              _error := mkVector3 (qx err) (qy err) (qz err);
              _vertices := _vertices e |}
  end.

End Edge.

End G2o.

(** ** Reference instances of the libraries

    Executable stand-ins for PCL and Eigen, used to run the embedding on
    concrete inputs.  The general theorems below hold for every instance
    of [PCL] and [Eigen]. *)

Module Reference.

(** *** A voxel grid: one centroid per occupied voxel *)

Definition VoxelKey := (Z * Z * Z)%type.

Definition voxel_key (leaf : Scalar) (p : PointType) : VoxelKey :=
  (Qfloor (this (vz p / leaf)), Qfloor (this (vy p / leaf)), Qfloor (this (vx p / leaf))).

Definition key_compare (a b : VoxelKey) : comparison :=
  let '(a2, a1, a0) := a in
  let '(b2, b1, b0) := b in
  match Z.compare a2 b2 with
  | Eq => match Z.compare a1 b1 with
          | Eq => Z.compare a0 b0
          | c => c
          end
  | c => c
  end.

(** A voxel under construction: the sum of its points and their number. *)
Definition VoxelCell := (VoxelKey * (Vector3 * Z))%type.

Fixpoint voxel_insert (k : VoxelKey) (p : PointType) (cells : list VoxelCell)
    : list VoxelCell :=
  match cells with
  | [] => [(k, (p, 1%Z))]
  | (k', (sum, n)) :: rest =>
      match key_compare k k' with
      | Lt => (k, (p, 1%Z)) :: cells
      | Eq => (k', (vadd sum p, (n + 1)%Z)) :: rest
      | Gt => (k', (sum, n)) :: voxel_insert k p rest
      end
  end.

Definition centroid (c : VoxelCell) : PointType :=
  let '(_, (sum, n)) := c in
  mkVector3 (vx sum / of_Z n) (vy sum / of_Z n) (vz sum / of_Z n).

Definition voxel_grid (leaf : Scalar) (input : PointCloud) : PointCloud :=
  map centroid
      (fold_left (fun cells p => voxel_insert (voxel_key leaf p) p cells) input []).

(** *** Radius outlier removal *)

Definition squared_distance (a b : PointType) : Scalar :=
  (vx a - vx b) * (vx a - vx b) + (vy a - vy b) * (vy a - vy b)
  + (vz a - vz b) * (vz a - vz b).

(** The points of [input] within [radius] of [p], [p] itself included. *)
Definition in_radius (radius : Scalar) (input : PointCloud) (p : PointType) : nat :=
  List.length (filter (fun q => negb (gtb (squared_distance p q) (radius * radius))) input).

Definition radius_outlier_removal (radius : Scalar) (min_neighbors : N)
    (input : PointCloud) : PointCloud :=
  filter (fun p => N.ltb min_neighbors (N.of_nat (in_radius radius input p))) input.

(** *** A scripted registration: both algorithms answer [answer] *)

Definition scripted_pcl (before_1_8_1 : bool) (answer : Registration) : PCL :=
  {| PCL_VERSION_before_1_8_1 := before_1_8_1;
     VoxelGrid_filter := voxel_grid;
     RadiusOutlierRemoval_filter := radius_outlier_removal;
     GICP_align := fun _ _ _ _ => answer;
     NDT_align := fun _ _ _ _ => answer |}.

(** *** Matrix inverse by cofactors *)

Fixpoint remove_nth {A} (n : nat) (l : list A) : list A :=
  match l, n with
  | [], _ => []
  | _ :: t, O => t
  | h :: t, S n' => h :: remove_nth n' t
  end.

Definition sign (n : nat) : Scalar := if Nat.even n then 1 else - (1).

Definition sum_list (l : list Scalar) : Scalar := fold_right Qcplus 0 l.

(** Laplace expansion along the first row; [dim] is the dimension. *)
Fixpoint determinant (dim : nat) (m : Matrix) : Scalar :=
  match dim, m with
  | S dim', r0 :: rest =>
      sum_list
        (map (fun j => sign j * nth j r0 0 * determinant dim' (map (remove_nth j) rest))
             (seq 0 (S dim')))
  | _, _ => 1
  end.

Definition cofactor (dim : nat) (m : Matrix) (i j : nat) : Scalar :=
  match dim with
  | O => 0
  | S dim' => sign (i + j) * determinant dim' (map (remove_nth j) (remove_nth i m))
  end.

Definition cofactor_inverse (m : Matrix) : Matrix :=
  let dim := List.length m in
  let d := determinant dim m in
  map (fun i => map (fun j => cofactor dim m j i / d) (seq 0 dim)) (seq 0 dim).

(** *** Rotation matrix to quaternion, with a rational square root *)

(** Exact on squares of rationals. *)
Definition sqrt_rational (q : Scalar) : Scalar :=
  Q2Qc (Z.sqrt (Qnum (this q)) # Pos.sqrt (Qden (this q))).

Definition coeff (m : Matrix3) (i j : nat) : Scalar :=
  let r := match i with O => row0 m | S O => row1 m | _ => row2 m end in
  match j with O => vx r | S O => vy r | _ => vz r end.

(** The quaternion whose coefficient number [i] (0 for x, 1 for y, 2 for
    z) is [a], number [j] is [b], number [k] is [c]. *)
Definition with_coeffs (w : Scalar) (i : nat) (a : Scalar) (j : nat) (b : Scalar)
    (k : nat) (c : Scalar) : Quaternion :=
  let pick n :=
    if Nat.eqb n i then a else if Nat.eqb n j then b else if Nat.eqb n k then c else 0 in
  mkQuaternion w (pick 0%nat) (pick 1%nat) (pick 2%nat).

Definition quaternion_of_matrix (m : Matrix3) : Quaternion :=
  let half := Q2Qc (1 # 2) in
  let trace := coeff m 0 0 + coeff m 1 1 + coeff m 2 2 in
  if gtb trace 0 then
    let t := sqrt_rational (trace + 1) in
    let t' := half / t in
    mkQuaternion (half * t)
                 ((coeff m 2 1 - coeff m 1 2) * t')
                 ((coeff m 0 2 - coeff m 2 0) * t')
                 ((coeff m 1 0 - coeff m 0 1) * t')
  else
    let i := if gtb (coeff m 1 1) (coeff m 0 0) then 1%nat else 0%nat in
    let i := if gtb (coeff m 2 2) (coeff m i i) then 2%nat else i in
    let j := Nat.modulo (i + 1) 3 in
    let k := Nat.modulo (j + 1) 3 in
    let t := sqrt_rational (coeff m i i - coeff m j j - coeff m k k + 1) in
    let t' := half / t in
    with_coeffs ((coeff m k j - coeff m j k) * t')
                i (half * t)
                j ((coeff m j i + coeff m i j) * t')
                k ((coeff m k i + coeff m i k) * t').

Definition eigen : Eigen :=
  {| Matrix_inverse := cofactor_inverse;
     Quaternion_of_Matrix3 := quaternion_of_matrix |}.

(** *** Sample data *)

Definition sample_parameters (algorithm : RegistrationAlgorithm) (density : Scalar)
    : RegistrationParameters :=
  {| registration_algorithm := algorithm;
     point_cloud_density := density;
     max_correspondence_distance := 1;
     maximum_iterations := 50;
     max_fitness_score := 1;
     transformation_epsilon := 0;
     euclidean_fitness_epsilon := 0;
     correspondence_randomness := 20;
     maximum_optimizer_iterations := 20;
     rotation_epsilon := 0;
     outlier_ratio := 0;
     step_size := 1;
     resolution := 1 |}.

Definition sample_sensor (scale : Scalar) (algorithm : RegistrationAlgorithm)
    (density : Scalar) : PointCloudSensor :=
  PointCloudSensor_new "laser" scale
    (sample_parameters algorithm density) (sample_parameters algorithm density).

(** A measurement of [n] points at the origin, taken at sensor pose
    [pose]. *)
Definition sample_cloud (n : nat) (pose : Transform) : PointCloudMeasurement :=
  {| pc_base := mkMeasurementBase "robot" "laser" pose;
     mPointCloud := repeat origin n |}.

Definition converged (score : Scalar) (final : Transform) : Registration :=
  {| hasConverged := true;
     getFitnessScore := fun _ => score;
     getFinalTransformation := final |}.

(** PCL 1.8.1 or later, and an older PCL; registration always converges
    to the identity with fitness score 0. *)
Definition recent_pcl : PCL := scripted_pcl false (converged 0 Identity).
Definition old_pcl : PCL := scripted_pcl true (converged 0 Identity).

Definition point (x y z : Z) : PointType := mkVector3 (of_Z x) (of_Z y) (of_Z z).

Definition vertex_a : VertexObject :=
  {| label := "a";
     corrected_pose := translate 1 0 0;
     measurement :=
       IsPointCloud {| pc_base := mkMeasurementBase "robot" "laser" Identity;
                       mPointCloud := [point 0 0 0; point 1 2 3] |} |}.

Definition vertex_b : VertexObject :=
  {| label := "b";
     corrected_pose := translate 0 5 0;
     measurement :=
       IsPointCloud {| pc_base := mkMeasurementBase "robot" "laser" (translate 0 0 1);
                       mPointCloud := [point 4 4 4] |} |}.

(** A vertex whose measurement is not a point cloud. *)
Definition vertex_imu : VertexObject :=
  {| label := "imu";
     corrected_pose := Identity;
     measurement := IsOther (mkMeasurementBase "robot" "imu" Identity) |}.

(** A dense scan: 100 points at the origin. *)
Definition scan : PointCloudMeasurement := sample_cloud 100 Identity.

(** The constraint that [createConstraint] builds from two [scan]s with
    [recent_pcl], identity odometry and covariance scale 2. *)
Definition scan_constraint : SE3Constraint :=
  {| constraint_sensor := "laser";
     constraint_transform := (Identity * Identity * inverse Identity)%tf;
     constraint_information :=
       cofactor_inverse (Matrix_scale (Matrix_Identity 6) (of_Z 2)) |}.

(** An edge object as the base-class constructor may leave it. *)
Definition blank_edge : G2o.EdgeOrientationPrior :=
  {| G2o._measurement := mkQuaternion 0 0 0 0;
     G2o._information := mkMatrix3 Vector3_Zero Vector3_Zero Vector3_Zero;
     G2o._sensor_pose := Identity;
     G2o._error := point 7 7 7;
     G2o._vertices := [] |}.

End Reference.

(** ** Vocabulary of the statements *)

Module Statements.

Definition is_point_cloud (m : Measurement) : bool :=
  match m with
  | IsPointCloud _ => true
  | IsOther _ => false
  end.

(** The cloud of a vertex in the map frame: its points moved by
    [corrected_pose * sensor_pose]; no points for a vertex without a point
    cloud. *)
Definition cloud_in_map (v : VertexObject) : PointCloud :=
  match measurement v with
  | IsPointCloud pc =>
      map (apply (corrected_pose v * mSensorPose (pc_base pc))%tf) (mPointCloud pc)
  | IsOther _ => []
  end.

(** The source and target inputs of a registration call; [None] for a
    filter call. *)
Definition registration_inputs (c : LibraryCall) : option (PointCloud * PointCloud) :=
  match c with
  | CallGICP _ input_source input_target _ => Some (input_source, input_target)
  | CallNDT _ input_source input_target _ => Some (input_source, input_target)
  | _ => None
  end.

Fixpoint registrations (cs : list LibraryCall) : list (PointCloud * PointCloud) :=
  match cs with
  | [] => []
  | c :: rest =>
      match registration_inputs c with
      | Some io => io :: registrations rest
      | None => registrations rest
      end
  end.

(** The clouds handed to the voxel grid, in call order. *)
Fixpoint voxel_inputs (cs : list LibraryCall) : list PointCloud :=
  match cs with
  | [] => []
  | CallVoxelGrid _ input :: rest => input :: voxel_inputs rest
  | _ :: rest => voxel_inputs rest
  end.

Definition too_few_points (source target : PointCloud) : bool :=
  Nat.ltb (List.length target) 100 || Nat.ltb (List.length source) 100.

Section WithPCL.

Context {pcl : PCL}.

(** The cloud given to the registration library as its source input when
    aligning pose-graph target cloud [target] from [guess]. *)
Definition library_source_input (config : RegistrationParameters)
    (target : PointCloud) (guess : Transform) : PointCloud :=
  match registration_algorithm config with
  | GICP =>
      if PCL_VERSION_before_1_8_1 then transformPointCloud target guess else target
  | NDT => target
  end.

(** The registration object once the library has aligned: what PCL
    answers to the one call that [doICP] or [doNDT] makes. *)
Definition registration_of (config : RegistrationParameters)
    (source target : PointCloud) (guess : Transform) : Registration :=
  match registration_algorithm config with
  | GICP =>
      GICP_align (gicp_settings config) (library_source_input config target guess) source
                 (if PCL_VERSION_before_1_8_1 then None else Some guess)
  | NDT => NDT_align (ndt_settings config) target source guess
  end.

(** The gate of [doICP] and [doNDT]. *)
Definition rejected (config : RegistrationParameters) (r : Registration) : Prop :=
  hasConverged r = false
  \/ (max_fitness_score config
      < getFitnessScore r (max_correspondence_distance config))%Qc.

(** The one registration call of an alignment. *)
Definition registration_call (config : RegistrationParameters)
    (source target : PointCloud) (guess : Transform) : LibraryCall :=
  match registration_algorithm config with
  | GICP =>
      CallGICP (gicp_settings config) (library_source_input config target guess) source
               (if PCL_VERSION_before_1_8_1 then None else Some guess)
  | NDT => CallNDT (ndt_settings config) target source guess
  end.

(** What [NoMatch] reports when the gate rejects registration [r]. *)
Definition registration_failure (config : RegistrationParameters) (r : Registration)
    : NoMatchReason :=
  let score := getFitnessScore r (max_correspondence_distance config) in
  match registration_algorithm config with
  | GICP => ICPFailed score (max_fitness_score config)
  | NDT => NDTFailed score (max_fitness_score config)
  end.

(** The transform returned when the gate accepts registration [r]. *)
Definition registration_result (config : RegistrationParameters) (r : Registration)
    (guess : Transform) : Transform :=
  match registration_algorithm config with
  | GICP =>
      if PCL_VERSION_before_1_8_1
      then (getFinalTransformation r * guess)%tf
      else getFinalTransformation r
  | NDT => getFinalTransformation r
  end.

(** The gate as the boolean that [doICP] and [doNDT] test. *)
Definition rejectedb (config : RegistrationParameters) (r : Registration) : bool :=
  negb (hasConverged r)
  || gtb (getFitnessScore r (max_correspondence_distance config)) (max_fitness_score config).

(** The PCL calls made by the [if] block at the head of [align]. *)
Definition density_calls (config : RegistrationParameters) (source target : PointCloud)
    : list LibraryCall :=
  if gtb (point_cloud_density config) 0
  then calls (downsample source (point_cloud_density config))
       ++ calls (downsample target (point_cloud_density config))
  else [].

End WithPCL.

(** Constraint computation [c] ends as alignment [fine] does, and when
    [fine] returns [g_fine] the constraint carries
    [source.sensor_pose * g_fine * target.sensor_pose^-1]. *)
Definition returns_in_robot_frame (source target : Measurement)
    (fine : M Transform) (c : M SE3Constraint) : Prop :=
  match outcome fine with
  | Returns g_fine =>
      exists k, outcome c = Returns k
                /\ constraint_transform k
                   = (getSensorPose source * g_fine * inverse (getSensorPose target))%tf
  | Throws e => outcome c = Throws e
  end.

(** [config] with another [point_cloud_density]. *)
Definition with_density (config : RegistrationParameters) (density : Scalar)
    : RegistrationParameters :=
  {| registration_algorithm := registration_algorithm config;
     point_cloud_density := density;
     max_correspondence_distance := max_correspondence_distance config;
     maximum_iterations := maximum_iterations config;
     max_fitness_score := max_fitness_score config;
     transformation_epsilon := transformation_epsilon config;
     euclidean_fitness_epsilon := euclidean_fitness_epsilon config;
     correspondence_randomness := correspondence_randomness config;
     maximum_optimizer_iterations := maximum_optimizer_iterations config;
     rotation_epsilon := rotation_epsilon config;
     outlier_ratio := outlier_ratio config;
     step_size := step_size config;
     resolution := resolution config |}.

End Statements.

Import Statements.

(** ** Further methods of [slam3d/sensor/pcl/PointCloudSensor.cpp] *)

Module Methods.

(** [createCombinedMeasurement]: the accumulated cloud, moved by
    [pose.inverse()], as a new point-cloud measurement with robot name
    ["AccumulatedPointcloud"], the sensor's name and the identity as sensor
    pose. *)
Definition createCombinedMeasurement (sensor : PointCloudSensor)
    (vertices : VertexObjectList) (pose : Transform) : M Measurement :=
  cloud <- getAccumulatedCloud vertices ;;
  let shifted := transformPointCloud cloud (inverse pose) in
  ret (IsPointCloud
         {| pc_base := mkMeasurementBase "AccumulatedPointcloud" (mName sensor) Identity;
            mPointCloud := shifted |}).

(** [setRegistrationParameters(conf, coarse)]. *)
Definition setRegistrationParameters (sensor : PointCloudSensor)
    (conf : RegistrationParameters) (coarse : bool) : PointCloudSensor :=
  if coarse
  then {| mName := mName sensor;
          mCovarianceScale := mCovarianceScale sensor;
          mCoarseConfiguration := conf;
          mFineConfiguration := mFineConfiguration sensor;
          mMapResolution := mMapResolution sensor;
          mMapOutlierRadius := mMapOutlierRadius sensor;
          mMapOutlierNeighbors := mMapOutlierNeighbors sensor |}
  else {| mName := mName sensor;
          mCovarianceScale := mCovarianceScale sensor;
          mCoarseConfiguration := mCoarseConfiguration sensor;
          mFineConfiguration := conf;
          mMapResolution := mMapResolution sensor;
          mMapOutlierRadius := mMapOutlierRadius sensor;
          mMapOutlierNeighbors := mMapOutlierNeighbors sensor |}.

(** [setMapResolution(r)]. *)
Definition setMapResolution (sensor : PointCloudSensor) (r : Scalar) : PointCloudSensor :=
  {| mName := mName sensor;
     mCovarianceScale := mCovarianceScale sensor;
     mCoarseConfiguration := mCoarseConfiguration sensor;
     mFineConfiguration := mFineConfiguration sensor;
     mMapResolution := r;
     mMapOutlierRadius := mMapOutlierRadius sensor;
     mMapOutlierNeighbors := mMapOutlierNeighbors sensor |}.

(** [setMapOutlierRemoval(r, n)]. *)
Definition setMapOutlierRemoval (sensor : PointCloudSensor) (r : Scalar) (n : N)
    : PointCloudSensor :=
  {| mName := mName sensor;
     mCovarianceScale := mCovarianceScale sensor;
     mCoarseConfiguration := mCoarseConfiguration sensor;
     mFineConfiguration := mFineConfiguration sensor;
     mMapResolution := mMapResolution sensor;
     mMapOutlierRadius := r;
     mMapOutlierNeighbors := n |}.

End Methods.

Import Methods.

(** ** Vocabulary of the further statements *)

Module MoreStatements.

(** The linear part is orthogonal: [R * R^T = I].  Eigen's [inverse()] of
    an [Isometry3d] is the inverse map under this condition only. *)
Definition is_isometry (t : Transform) : Prop :=
  mul_mat (linear t) (transpose (linear t)) = Matrix3_Identity.

(** The number of points that a vertex contributes to an accumulation. *)
Definition cloud_size (v : VertexObject) : nat :=
  match measurement v with
  | IsPointCloud pc => List.length (mPointCloud pc)
  | IsOther _ => 0%nat
  end.

(** The vertex seen from another map frame: its corrected pose is
    multiplied on the left by [frame]. *)
Definition move_vertex (frame : Transform) (v : VertexObject) : VertexObject :=
  {| label := label v;
     corrected_pose := (frame * corrected_pose v)%tf;
     measurement := measurement v |}.

(** The quaternion [q] with every coefficient multiplied by [c]. *)
Definition qscale (c : Scalar) (q : Quaternion) : Quaternion :=
  mkQuaternion (c * qw q) (c * qx q) (c * qy q) (c * qz q).

(** The error stored by [computeError], if it ran. *)
Definition error_after (e : option G2o.EdgeOrientationPrior) : option Vector3 :=
  option_map G2o._error e.

(** Both inputs of a registration call have at least 100 points. *)
Definition dense_inputs (io : PointCloud * PointCloud) : Prop :=
  (100 <= List.length (fst io))%nat /\ (100 <= List.length (snd io))%nat.

Section WithPCL.

Context {pcl : PCL}.

(** The GICP run of the earlier [calculateTransform]: on the filtered
    clouds, the target moved by the guess, without a guess argument. *)
Definition legacy_registration (config : RegistrationParameters)
    (source target : PointCloud) (guess : Transform) : Registration :=
  GICP_align (gicp_settings config)
    (transformPointCloud (VoxelGrid_filter (point_cloud_density config) target) guess)
    (VoxelGrid_filter (point_cloud_density config) source)
    None.

(** The gate of the earlier [calculateTransform], whose fitness score is
    taken with the default range. *)
Definition legacy_rejected (config : RegistrationParameters) (r : Registration) : Prop :=
  hasConverged r = false
  \/ (max_fitness_score config
      < getFitnessScore r Legacy.numeric_limits_double_max)%Qc.

End WithPCL.

End MoreStatements.

Import MoreStatements.

(** Further sample data for the runs. *)

Module MoreSamples.

(** A quarter turn about the z axis, followed by a translation. *)
Definition quarter_turn : Transform :=
  mkTransform
    (mkMatrix3 (mkVector3 0 (- (1)) 0) (mkVector3 1 0 0) (mkVector3 0 0 1))
    (mkVector3 (of_Z 2) (of_Z 3) (of_Z 5)).

(** A vertex whose point cloud has no points. *)
Definition vertex_empty : VertexObject :=
  {| label := "empty";
     corrected_pose := quarter_turn;
     measurement :=
       IsPointCloud {| pc_base := mkMeasurementBase "robot" "laser" Identity;
                       mPointCloud := [] |} |}.

(** A dense scan taken through a sensor mounted at [quarter_turn]. *)
Definition mounted_scan : PointCloudMeasurement :=
  Reference.sample_cloud 100 quarter_turn.

(** The sensor-frame guess of [createConstraint] for two [mounted_scan]s
    and identity odometry. *)
Definition mounted_guess : Transform :=
  (inverse quarter_turn * Identity * quarter_turn)%tf.

(** A PCL whose registration converges to [mounted_guess]. *)
Definition echo_pcl : PCL :=
  Reference.scripted_pcl false (Reference.converged 0 mounted_guess).

(** An old PCL whose registration converges to the translation that
    undoes a shift by one unit along x. *)
Definition unshift_pcl : PCL :=
  Reference.scripted_pcl true (Reference.converged 0 (translate (-1) 0 0)).

End MoreSamples.

(** * Properties *)

(** ** Scalars and the monad *)

Lemma eqb_eq (a b : Scalar) : eqb a b = true <-> a = b.
Proof.
  unfold eqb. split; intro H.
  - apply Qc_is_canon. now apply Qeq_bool_iff.
  - subst. apply Qeq_bool_iff. reflexivity.
Qed.

Lemma ltb_lt (a b : Scalar) : ltb a b = true <-> (a < b)%Qc.
Proof.
  unfold ltb. rewrite Qclt_alt. destruct (a ?= b)%Qc; split; congruence.
Qed.

Lemma gtb_gt (a b : Scalar) : gtb a b = true <-> (b < a)%Qc.
Proof. apply ltb_lt. Qed.

Lemma gtb_false_le (a b : Scalar) : gtb a b = false <-> (a <= b)%Qc.
Proof.
  unfold gtb, ltb. rewrite Qcle_alt.
  change (b ?= a)%Qc with (this b ?= this a)%Q.
  change (a ?= b)%Qc with (this a ?= this b)%Q.
  rewrite <- (Qcompare_antisym (this a) (this b)).
  destruct (this a ?= this b)%Q; simpl; split; congruence.
Qed.

Section MonadFacts.

Context {A B : Type}.

Lemma bind_ret (a : A) (k : A -> M B) : bind (ret a) k = k a.
Proof. unfold bind, ret; simpl. now destruct (k a). Qed.

Lemma bind_throw (e : Exception) (k : A -> M B) : bind (throw e) k = throw e.
Proof. reflexivity. Qed.

Lemma bind_returns (m : M A) (k : A -> M B) (a : A) :
  outcome m = Returns a ->
  bind m k = (calls m ++ calls (k a), outcome (k a)).
Proof. intro H. unfold bind. now rewrite H. Qed.

Lemma bind_throws (m : M A) (k : A -> M B) (e : Exception) :
  outcome m = Throws e ->
  bind m k = (calls m, Throws e).
Proof. intro H. unfold bind. now rewrite H. Qed.

Lemma bind_call (c : LibraryCall) (a : A) (k : A -> M B) :
  bind (call c a) k = (c :: calls (k a), outcome (k a)).
Proof. reflexivity. Qed.

End MonadFacts.

Lemma surjective_M {A} (m : M A) : m = (calls m, outcome m).
Proof. now destruct m. Qed.

Lemma succeeds_or_throws {A} (m : M A) :
  succeeds m \/ exists e, fails_with m e.
Proof.
  unfold succeeds, fails_with. destruct (outcome m) as [a | e]; eauto.
Qed.

Lemma succeeds_not_fails {A} (m : M A) (e : Exception) :
  succeeds m -> ~ fails_with m e.
Proof. unfold succeeds, fails_with. intros [a Ha] H. congruence. Qed.

(** ** Preprocessing: filters, accumulation, map building *)

Section Preprocessing.

Context {pcl : PCL}.

(** C8.  Whatever the leaf size, the radius and the neighbour count,
    [downsample] of the empty cloud and [removeOutliers] of the empty cloud
    return the empty cloud: they make no call into PCL and throw
    nothing. *)
Theorem filters_on_empty_cloud (leaf_size radius : Scalar) (min_neighbors : N) :
  downsample [] leaf_size = ([], Returns [])
  /\ removeOutliers [] radius min_neighbors = ([], Returns []).
Proof. split; reflexivity. Qed.

Lemma downsample_returns (input : PointCloud) (leaf_size : Scalar) :
  exists out, outcome (downsample input leaf_size) = Returns out.
Proof. destruct input; simpl; eauto. Qed.

Lemma removeOutliers_returns (input : PointCloud) (radius : Scalar) (n : N) :
  exists out, outcome (removeOutliers input radius n) = Returns out.
Proof. destruct input; simpl; eauto. Qed.

Lemma cloud_in_map_point_cloud (v : VertexObject) (pc : PointCloudMeasurement) :
  measurement v = IsPointCloud pc ->
  cloud_in_map v
  = transform (getPointCloud pc) (corrected_pose v * getSensorPose (measurement v))%tf.
Proof. intro H. unfold cloud_in_map, getSensorPose. now rewrite H. Qed.

(** The loop, for any cloud accumulated so far: it throws at the first
    vertex without a point cloud, and otherwise appends the clouds of the
    visited vertices in visiting order. *)
Lemma accumulate_loop_spec (visit : list VertexObject) :
  forall accu,
    accumulate_loop visit accu
    = if forallb (fun v => is_point_cloud (measurement v)) visit
      then ([], Returns (accu ++ flat_map cloud_in_map visit))
      else ([], Throws BadMeasurementType).
Proof.
  induction visit as [| v rest IH]; intro accu; simpl.
  - now rewrite app_nil_r.
  - destruct (measurement v) as [pc | b] eqn:E; simpl.
    + rewrite IH. unfold concatenate.
      rewrite (cloud_in_map_point_cloud v E), E, <- app_assoc. reflexivity.
    + reflexivity.
Qed.

Lemma forallb_rev {X} (f : X -> bool) (l : list X) :
  forallb f (rev l) = forallb f l.
Proof.
  induction l as [| x l IH]; simpl; [reflexivity |].
  rewrite forallb_app, IH. simpl. rewrite andb_true_r. apply andb_comm.
Qed.

Lemma getAccumulatedCloud_spec (vertices : VertexObjectList) :
  getAccumulatedCloud vertices
  = if forallb (fun v => is_point_cloud (measurement v)) vertices
    then ([], Returns (flat_map cloud_in_map (rev vertices)))
    else ([], Throws BadMeasurementType).
Proof.
  unfold getAccumulatedCloud. rewrite accumulate_loop_spec, forallb_rev. reflexivity.
Qed.

Lemma not_all_point_clouds (vertices : VertexObjectList) :
  forallb (fun v => is_point_cloud (measurement v)) vertices = false
  <-> exists v, In v vertices /\ is_point_cloud (measurement v) = false.
Proof.
  induction vertices as [| x l IH]; simpl.
  - split; [discriminate | intros [v [[] _]]].
  - rewrite andb_false_iff, IH. split.
    + intros [H | [v [Hin Hv]]]; eauto.
    + intros [v [[-> | Hin] Hv]]; eauto.
Qed.

(** C6.  [getAccumulatedCloud] throws [BadMeasurementType] exactly when
    some vertex of the list carries a measurement that is not a point
    cloud.  When every measurement is a point cloud it returns, without a
    call into PCL, the concatenation of the clouds of the vertices, each
    moved by [corrected_pose * sensor_pose] of its vertex, the last vertex
    of the list first. *)
Theorem getAccumulatedCloud_BadMeasurementType (vertices : VertexObjectList) :
  (fails_with (getAccumulatedCloud vertices) BadMeasurementType
   <-> exists v, In v vertices /\ is_point_cloud (measurement v) = false)
  /\ ((forall v, In v vertices -> is_point_cloud (measurement v) = true) ->
      getAccumulatedCloud vertices
      = ([], Returns (flat_map cloud_in_map (rev vertices)))).
Proof.
  rewrite getAccumulatedCloud_spec. split.
  - rewrite <- not_all_point_clouds. unfold fails_with.
    destruct (forallb _ vertices); simpl; split; congruence.
  - intro H. apply forallb_forall in H. now rewrite H.
Qed.

(** C7.  For two point-cloud vertices [a] and [b], accumulating [[a; b]]
    and accumulating [[b; a]] both succeed, and the two clouds are
    permutations of each other: the same points with the same
    multiplicities. *)
Theorem accumulation_order_independent (a b : VertexObject) :
  is_point_cloud (measurement a) = true ->
  is_point_cloud (measurement b) = true ->
  exists ab ba,
    outcome (getAccumulatedCloud [a; b]) = Returns ab
    /\ outcome (getAccumulatedCloud [b; a]) = Returns ba
    /\ Permutation ab ba.
Proof.
  intros Ha Hb.
  exists (cloud_in_map b ++ cloud_in_map a), (cloud_in_map a ++ cloud_in_map b).
  rewrite !getAccumulatedCloud_spec. simpl. rewrite Ha, Hb. simpl.
  rewrite !app_nil_r. repeat split. apply Permutation_app_comm.
Qed.

(** Accumulation is insensitive to any reordering of the list. *)
Lemma accumulation_permutation (l l' : VertexObjectList) :
  Permutation l l' ->
  Permutation (flat_map cloud_in_map (rev l)) (flat_map cloud_in_map (rev l')).
Proof.
  intro H. apply Permutation_flat_map.
  now rewrite <- !Permutation_rev.
Qed.

(** C9.  For a list of point-cloud vertices, [buildMap] returns the voxel
    downsampling, at [mMapResolution], of the radius outlier removal, with
    [mMapOutlierRadius] and [mMapOutlierNeighbors], of the accumulated
    cloud; its PCL calls are those of the outlier removal followed by those
    of the downsampling. *)
Theorem buildMap_composition (sensor : PointCloudSensor) (vertices : VertexObjectList) :
  (forall v, In v vertices -> is_point_cloud (measurement v) = true) ->
  exists accu cleaned map_cloud,
    getAccumulatedCloud vertices = ([], Returns accu)
    /\ outcome (removeOutliers accu (mMapOutlierRadius sensor)
                               (mMapOutlierNeighbors sensor)) = Returns cleaned
    /\ outcome (downsample cleaned (mMapResolution sensor)) = Returns map_cloud
    /\ outcome (buildMap sensor vertices) = Returns map_cloud
    /\ calls (buildMap sensor vertices)
       = calls (removeOutliers accu (mMapOutlierRadius sensor)
                               (mMapOutlierNeighbors sensor))
         ++ calls (downsample cleaned (mMapResolution sensor)).
Proof.
  intro H.
  assert (Hacc : getAccumulatedCloud vertices
                 = ([], Returns (flat_map cloud_in_map (rev vertices)))).
  { rewrite getAccumulatedCloud_spec. apply forallb_forall in H. now rewrite H. }
  set (accu := flat_map cloud_in_map (rev vertices)) in *.
  destruct (removeOutliers_returns accu (mMapOutlierRadius sensor)
              (mMapOutlierNeighbors sensor)) as [cleaned Hc].
  destruct (downsample_returns cleaned (mMapResolution sensor)) as [out Ho].
  exists accu, cleaned, out. repeat split; try assumption.
  - unfold buildMap. rewrite Hacc.
    change ([], Returns accu) with (ret (A := PointCloud) accu).
    rewrite bind_ret, (bind_returns _ _ Hc). exact Ho.
  - unfold buildMap. rewrite Hacc.
    change ([], Returns accu) with (ret (A := PointCloud) accu).
    rewrite bind_ret, (bind_returns _ _ Hc). reflexivity.
Qed.

(** The earlier version of the sensor accumulates in the same way. *)
Lemma Legacy_getAccumulatedCloud_same (vertices : VertexObjectList) :
  Legacy.getAccumulatedCloud vertices = getAccumulatedCloud vertices.
Proof. reflexivity. Qed.

(** When accumulation throws, [buildMap] throws the same exception and
    calls no filter. *)
Lemma buildMap_propagates (sensor : PointCloudSensor) (vertices : VertexObjectList)
    (e : Exception) :
  fails_with (getAccumulatedCloud vertices) e ->
  buildMap sensor vertices = (calls (getAccumulatedCloud vertices), Throws e).
Proof. intro H. unfold buildMap. now rewrite (bind_throws _ _ H). Qed.

End Preprocessing.

(** ** Scan registration: [align], [doICP], [doNDT] *)

Section Registration.

Context {pcl : PCL}.

Lemma registrations_app (l l' : list LibraryCall) :
  registrations (l ++ l') = registrations l ++ registrations l'.
Proof.
  induction l as [| c l IH]; simpl; [reflexivity |].
  destruct (registration_inputs c); simpl; now rewrite IH.
Qed.

Lemma downsample_no_registration (input : PointCloud) (leaf_size : Scalar) :
  registrations (calls (downsample input leaf_size)) = [].
Proof. now destruct input. Qed.

Lemma rejectedb_true (config : RegistrationParameters) (r : Registration) :
  rejectedb config r = true <-> rejected config r.
Proof.
  unfold rejectedb, rejected.
  rewrite orb_true_iff, negb_true_iff, gtb_gt. reflexivity.
Qed.

Lemma rejectedb_false (config : RegistrationParameters) (r : Registration) :
  rejectedb config r = false
  <-> hasConverged r = true
      /\ (getFitnessScore r (max_correspondence_distance config)
          <= max_fitness_score config)%Qc.
Proof.
  unfold rejectedb.
  rewrite orb_false_iff, negb_false_iff, gtb_false_le. reflexivity.
Qed.

Lemma density_calls_no_registration config source target :
  registrations (density_calls config source target) = [].
Proof.
  unfold density_calls. destruct (gtb _ _); [| reflexivity].
  now rewrite registrations_app, !downsample_no_registration.
Qed.

(** [doICP] makes one call into GICP and gates its answer. *)
Lemma doICP_eq (source target : PointCloud) (guess : Transform)
    (config : RegistrationParameters) :
  registration_algorithm config = GICP ->
  doICP source target guess config
  = ([CallGICP (gicp_settings config) (library_source_input config target guess) source
               (if PCL_VERSION_before_1_8_1 then None else Some guess)],
     let r := registration_of config source target guess in
     if rejectedb config r
     then Throws (NoMatch (ICPFailed (getFitnessScore r (max_correspondence_distance config))
                                     (max_fitness_score config)))
     else Returns (if PCL_VERSION_before_1_8_1
                   then (getFinalTransformation r * guess)%tf
                   else getFinalTransformation r)).
Proof.
  intro Halg. unfold doICP, registration_of, library_source_input, rejectedb.
  rewrite Halg. destruct PCL_VERSION_before_1_8_1; rewrite bind_call; simpl;
    match goal with |- context [negb ?c || ?d] => destruct (negb c || d) end;
    reflexivity.
Qed.

(** [doNDT] makes one call into NDT and gates its answer. *)
Lemma doNDT_eq (source target : PointCloud) (guess : Transform)
    (config : RegistrationParameters) :
  registration_algorithm config = NDT ->
  doNDT source target guess config
  = ([CallNDT (ndt_settings config) target source guess],
     let r := registration_of config source target guess in
     if rejectedb config r
     then Throws (NoMatch (NDTFailed (getFitnessScore r (max_correspondence_distance config))
                                     (max_fitness_score config)))
     else Returns (getFinalTransformation r)).
Proof.
  intro Halg. unfold doNDT, registration_of, rejectedb.
  rewrite Halg, bind_call. simpl.
  match goal with |- context [negb ?c || ?d] => destruct (negb c || d) end;
    reflexivity.
Qed.

(** [align] in one equation: the filter calls of the [if] block, then the
    size test on the clouds of the measurements, then the registration. *)
Lemma align_eq (source target : PointCloudMeasurement) (guess : Transform)
    (config : RegistrationParameters) :
  align source target guess config
  = let cs := getPointCloud source in
    let ct := getPointCloud target in
    if too_few_points cs ct
    then (density_calls config cs ct, Throws (NoMatch TooFewPoints))
    else
      let m := match registration_algorithm config with
               | GICP => doICP cs ct guess config
               | NDT => doNDT cs ct guess config
               end in
      (density_calls config cs ct ++ calls m, outcome m).
Proof.
  unfold align, density_calls, too_few_points. cbv zeta.
  set (cs := getPointCloud source). set (ct := getPointCloud target).
  set (d := point_cloud_density config).
  assert (Hblock :
    forall k : unit -> M Transform,
      bind (if gtb d 0
            then (inner_filtered_source <- downsample cs d ;;
                  inner_filtered_target <- downsample ct d ;; ret tt)
            else ret tt) k
      = ((if gtb d 0 then calls (downsample cs d) ++ calls (downsample ct d) else [])
           ++ calls (k tt), outcome (k tt))).
  { intro k. destruct (gtb d 0).
    - destruct (downsample_returns cs d) as [o1 H1].
      destruct (downsample_returns ct d) as [o2 H2].
      rewrite (bind_returns (downsample cs d) _ H1), (bind_returns (downsample ct d) _ H2).
      unfold bind; simpl. now rewrite app_nil_r.
    - rewrite bind_ret. apply surjective_M. }
  rewrite Hblock.
  destruct (Nat.ltb (List.length ct) 100 || Nat.ltb (List.length cs) 100); simpl.
  - now rewrite app_nil_r.
  - reflexivity.
Qed.

(** [align] by cases. *)
Lemma align_cases (source target : PointCloudMeasurement) (guess : Transform)
    (config : RegistrationParameters) :
  let cs := getPointCloud source in
  let ct := getPointCloud target in
  let r := registration_of config cs ct guess in
  align source target guess config
  = if too_few_points cs ct
    then (density_calls config cs ct, Throws (NoMatch TooFewPoints))
    else (density_calls config cs ct ++ [registration_call config cs ct guess],
          if rejectedb config r
          then Throws (NoMatch (registration_failure config r))
          else Returns (registration_result config r guess)).
Proof.
  cbv zeta. rewrite align_eq. cbv zeta.
  destruct (too_few_points _ _); [reflexivity |].
  unfold registration_call, registration_failure, registration_result.
  destruct (registration_algorithm config) eqn:Halg.
  - now rewrite (doICP_eq _ _ _ _ Halg).
  - now rewrite (doNDT_eq _ _ _ _ Halg).
Qed.

Lemma too_few_points_true (source target : PointCloud) :
  too_few_points source target = true
  <-> (List.length target < 100)%nat \/ (List.length source < 100)%nat.
Proof.
  unfold too_few_points. now rewrite orb_true_iff, !Nat.ltb_lt.
Qed.

Lemma too_few_points_false (source target : PointCloud) :
  too_few_points source target = false
  <-> (100 <= List.length target)%nat /\ (100 <= List.length source)%nat.
Proof.
  unfold too_few_points. now rewrite orb_false_iff, !Nat.ltb_ge.
Qed.

(** C3.  [align] throws [NoMatch] exactly when one of the two clouds it
    hands to the registration algorithm has fewer than 100 points, or the
    algorithm does not report convergence, or the fitness score it reports
    exceeds [max_fitness_score].  It returns a transform exactly when both
    clouds have at least 100 points, the algorithm converged and the score
    is at most [max_fitness_score]; it throws no other exception. *)
Theorem align_NoMatch_exactly (source target : PointCloudMeasurement) (guess : Transform)
    (config : RegistrationParameters) :
  let cs := getPointCloud source in
  let ct := getPointCloud target in
  let r := registration_of config cs ct guess in
  ((exists reason, fails_with (align source target guess config) (NoMatch reason))
   <-> ((List.length ct < 100)%nat \/ (List.length cs < 100)%nat \/ rejected config r))
  /\ (succeeds (align source target guess config)
      <-> ((100 <= List.length ct)%nat /\ (100 <= List.length cs)%nat
           /\ hasConverged r = true
           /\ (getFitnessScore r (max_correspondence_distance config)
               <= max_fitness_score config)%Qc))
  /\ ~ fails_with (align source target guess config) BadMeasurementType.
Proof.
  cbv zeta. rewrite align_cases. cbv zeta.
  unfold fails_with, succeeds.
  destruct (too_few_points _ _) eqn:Hfew; simpl.
  - apply too_few_points_true in Hfew. split; [| split].
    + split; [tauto | eauto].
    + split; [intros [a Ha]; discriminate | intros (H1 & H2 & _); lia].
    + discriminate.
  - apply too_few_points_false in Hfew.
    destruct (rejectedb config _) eqn:Hrej.
    + apply rejectedb_true in Hrej. split; [| split].
      * split; [tauto | eauto].
      * split; [intros [a Ha]; discriminate |].
        intros (_ & _ & Hc & Hs). exfalso.
        destruct Hrej as [Hn | Hgt]; [congruence |].
        eapply Qclt_not_le; eassumption.
      * discriminate.
    + apply rejectedb_false in Hrej. destruct Hrej as [Hc Hs].
      split; [| split].
      * split; [intros [reason Hr]; discriminate |].
        intros [Hl | [Hl | Hr]]; try lia. exfalso.
        destruct Hr as [Hn | Hgt]; [congruence |].
        eapply Qclt_not_le; eassumption.
      * split; [tauto | eauto].
      * discriminate.
Qed.

(** The registration inputs of [align], by cases: none when the size test
    fails, otherwise one pair whose second component, the library's target
    input, is the pose-graph source cloud. *)
Theorem registration_roles (source target : PointCloudMeasurement) (guess : Transform)
    (config : RegistrationParameters) :
  let cs := getPointCloud source in
  let ct := getPointCloud target in
  registrations (calls (align source target guess config))
  = if too_few_points cs ct then []
    else [(match registration_algorithm config with
           | GICP => if PCL_VERSION_before_1_8_1
                     then transformPointCloud ct guess
                     else ct
           | NDT => ct
           end, cs)].
Proof.
  cbv zeta. rewrite align_cases. cbv zeta.
  destruct (too_few_points _ _); simpl.
  - apply density_calls_no_registration.
  - rewrite registrations_app, density_calls_no_registration. simpl.
    unfold registration_call, library_source_input.
    destruct (registration_algorithm config); reflexivity.
Qed.

(** The outcome of [align] and its registration call do not depend on
    [point_cloud_density]: the downsampled clouds are never used. *)
Lemma align_density_irrelevant (source target : PointCloudMeasurement)
    (guess : Transform) (config : RegistrationParameters) (density : Scalar) :
  outcome (align source target guess (with_density config density))
  = outcome (align source target guess config)
  /\ registrations (calls (align source target guess (with_density config density)))
     = registrations (calls (align source target guess config)).
Proof.
  rewrite !align_cases. cbv zeta.
  destruct (too_few_points _ _); simpl.
  - now rewrite !density_calls_no_registration.
  - rewrite !registrations_app, !density_calls_no_registration. split; reflexivity.
Qed.

End Registration.

(** ** Constraint creation *)

Section Constraints.

Context {pcl : PCL} {eigen : Eigen}.

Lemma bind_returns_inv {A B} (m : M A) (k : A -> M B) (b : B) :
  outcome (bind m k) = Returns b ->
  exists a, outcome m = Returns a /\ outcome (k a) = Returns b.
Proof.
  unfold bind. destruct (outcome m) as [a | e]; simpl; [eauto | discriminate].
Qed.

(** C1.  For point-cloud measurements [source] and [target], any odometry
    guess and any loop flag, [createConstraint] starts from the guess
    [g = source.sensor_pose^-1 * odometry * target.sensor_pose].  Without
    the loop flag its PCL calls are those of the fine alignment from [g].
    With the loop flag it first runs the coarse alignment from [g]; if that
    throws, the exception propagates, and otherwise the fine alignment runs
    from the coarse result.  In both cases, when the fine alignment returns
    [g_fine], the constraint returned has transform
    [source.sensor_pose * g_fine * target.sensor_pose^-1], and when the fine
    alignment throws, so does [createConstraint]. *)
Theorem createConstraint_frames (sensor : PointCloudSensor)
    (source target : PointCloudMeasurement) (odometry : Transform) (loop : bool) :
  let s := IsPointCloud source in
  let t := IsPointCloud target in
  let g := (inverse (getSensorPose s) * odometry * getSensorPose t)%tf in
  let c := createConstraint sensor s t odometry loop in
  if loop
  then
    let coarse := align source target g (mCoarseConfiguration sensor) in
    match outcome coarse with
    | Returns g_coarse =>
        let fine := align source target g_coarse (mFineConfiguration sensor) in
        calls c = calls coarse ++ calls fine /\ returns_in_robot_frame s t fine c
    | Throws e => c = (calls coarse, Throws e)
    end
  else
    let fine := align source target g (mFineConfiguration sensor) in
    calls c = calls fine /\ returns_in_robot_frame s t fine c.
Proof.
  cbv zeta. unfold createConstraint, returns_in_robot_frame, getInverseSensorPose.
  simpl dynamic_pointer_cast. cbv iota beta.
  set (g := (inverse _ * odometry * _)%tf).
  destruct loop.
  - destruct (outcome (align source target g (mCoarseConfiguration sensor)))
      as [g_coarse | e] eqn:Hc.
    + rewrite (bind_returns _ _ Hc).
      destruct (outcome (align source target g_coarse (mFineConfiguration sensor)))
        as [g_fine | e] eqn:Hf.
      * rewrite (bind_returns _ _ Hf). simpl. rewrite app_nil_r.
        split; [reflexivity | eauto].
      * rewrite (bind_throws _ _ Hf). simpl. split; reflexivity.
    + now rewrite (bind_throws _ _ Hc).
  - rewrite bind_ret.
    destruct (outcome (align source target g (mFineConfiguration sensor)))
      as [g_fine | e] eqn:Hf.
    + rewrite (bind_returns _ _ Hf). simpl. rewrite app_nil_r.
      split; [reflexivity | eauto].
    + rewrite (bind_throws _ _ Hf). simpl. split; reflexivity.
Qed.

(** A measurement that is not a point cloud, on either side, makes
    [createConstraint] throw [BadMeasurementType] before any PCL call. *)
Lemma createConstraint_BadMeasurementType (sensor : PointCloudSensor)
    (source target : Measurement) (odometry : Transform) (loop : bool) :
  is_point_cloud source && is_point_cloud target = false ->
  createConstraint sensor source target odometry loop = ([], Throws BadMeasurementType).
Proof.
  destruct source, target; simpl; intro H; try discriminate; reflexivity.
Qed.

(** C4, as the code has it.  The constraint returned by a successful
    [createConstraint] carries the inverse of the 6x6 identity scaled by
    [mCovarianceScale]: the covariance is inverted inside
    [createConstraint], and the constraint stores the resulting
    information matrix. *)
Theorem constraint_carries_inverse (sensor : PointCloudSensor)
    (source target : Measurement) (odometry : Transform) (loop : bool)
    (c : SE3Constraint) :
  outcome (createConstraint sensor source target odometry loop) = Returns c ->
  constraint_information c
  = Matrix_inverse (Matrix_scale (Matrix_Identity 6) (mCovarianceScale sensor)).
Proof.
  unfold createConstraint.
  destruct (dynamic_pointer_cast source) as [sc |]; [| discriminate].
  destruct (dynamic_pointer_cast target) as [tc |]; [| discriminate].
  intro H.
  apply bind_returns_inv in H. destruct H as [g0 [_ H]].
  apply bind_returns_inv in H. destruct H as [g_fine [_ H]].
  simpl in H. injection H as <-. reflexivity.
Qed.

(** The earlier [calculateTransform] uses the same frame algebra around
    its single GICP run, whose configuration the flag selects; it always
    filters both clouds, has no size test, and attaches the unscaled
    identity as covariance. *)
Lemma Legacy_calculateTransform_frames (sensor : Legacy.PointCloudSensor)
    (source target : PointCloudMeasurement) (odometry : Transform) (coarse : bool) :
  let s := IsPointCloud source in
  let t := IsPointCloud target in
  let config :=
    if coarse then Legacy.mCoarseConfiguration sensor
    else Legacy.mFineConfiguration sensor in
  let g := (inverse (getSensorPose s) * odometry * getSensorPose t)%tf in
  let filtered_source :=
    VoxelGrid_filter (point_cloud_density config) (getPointCloud source) in
  let filtered_target :=
    VoxelGrid_filter (point_cloud_density config) (getPointCloud target) in
  let icp :=
    GICP_align (gicp_settings config) (transformPointCloud filtered_target g)
               filtered_source None in
  Legacy.calculateTransform sensor s t odometry coarse
  = ([CallVoxelGrid (point_cloud_density config) (getPointCloud source);
      CallVoxelGrid (point_cloud_density config) (getPointCloud target);
      CallGICP (gicp_settings config) (transformPointCloud filtered_target g)
               filtered_source None],
     if negb (hasConverged icp)
        || gtb (getFitnessScore icp Legacy.numeric_limits_double_max)
               (max_fitness_score config)
     then Throws (NoMatch Unspecified)
     else Returns
            {| Legacy.twc_transform :=
                 (getSensorPose s * (getFinalTransformation icp * g)
                  * inverse (getSensorPose t))%tf;
               Legacy.twc_covariance := Matrix_Identity 6 |}).
Proof.
  cbv zeta. unfold Legacy.calculateTransform, Legacy.downsample, getInverseSensorPose.
  simpl dynamic_pointer_cast. cbv iota beta.
  rewrite !bind_call.
  match goal with |- context [negb ?a || ?b] => destruct (negb a || b) end;
    reflexivity.
Qed.

End Constraints.

(** ** Isometries acting on clouds *)

Lemma apply_compose (a b : Transform) (p : Vector3) :
  apply (a * b)%tf p = apply a (apply b p).
Proof.
  destruct a as [[[a00 a01 a02] [a10 a11 a12] [a20 a21 a22]] [ax ay az]].
  destruct b as [[[b00 b01 b02] [b10 b11 b12] [b20 b21 b22]] [bx by' bz]].
  destruct p as [px py pz].
  unfold apply, compose, mul_mat, mul_vec, vadd, dot, col0, col1, col2; simpl.
  f_equal; ring.
Qed.

Lemma transformPointCloud_compose (cloud : PointCloud) (a b : Transform) :
  transformPointCloud cloud (a * b)%tf
  = transformPointCloud (transformPointCloud cloud b) a.
Proof.
  unfold transformPointCloud. rewrite map_map.
  apply map_ext. intro p. apply apply_compose.
Qed.

Lemma transformPointCloud_length (cloud : PointCloud) (tf : Transform) :
  List.length (transformPointCloud cloud tf) = List.length cloud.
Proof. apply length_map. Qed.

(** In every branch, the transform that an accepted alignment returns
    moves the pose-graph target cloud to where the library's final
    transformation moved the library's source input: pre-shifting the
    target by the guess and composing the guess afterwards is the same
    map. *)
Lemma accepted_result_moves_target {pcl : PCL} (config : RegistrationParameters)
    (r : Registration) (target : PointCloud) (guess : Transform) :
  transformPointCloud target (registration_result config r guess)
  = transformPointCloud (library_source_input config target guess)
                        (getFinalTransformation r).
Proof.
  unfold registration_result, library_source_input.
  destruct (registration_algorithm config); [| reflexivity].
  destruct PCL_VERSION_before_1_8_1; [| reflexivity].
  apply transformPointCloud_compose.
Qed.

(** ** The orientation prior edge *)

Section OrientationPrior.

Context {eigen : Eigen}.

Import G2o.

(** The vector part of [q^-1 * q] vanishes for every quaternion [q]. *)
Lemma qinverse_mul_vec (q : Quaternion) :
  vec (qmul (qinverse q) q) = Vector3_Zero.
Proof.
  destruct q as [w x y z]. unfold qinverse, qmul, vec, Vector3_Zero; simpl.
  destruct (gtb _ _); simpl; unfold Qcdiv; f_equal; ring.
Qed.

(** For a unit quaternion, [inverse] is the conjugate. *)
Lemma qinverse_unit (q : Quaternion) :
  squaredNorm q = 1 -> qinverse q = conjugate q.
Proof.
  intro H. unfold qinverse. rewrite H.
  replace (gtb 1 0) with true by (symmetry; now apply gtb_gt).
  destruct q as [w x y z]; unfold conjugate; simpl.
  unfold Qcdiv. f_equal; field; discriminate.
Qed.

(** C10.  An edge built by the constructor from a measurement [m] and a
    sensor pose [s] has the 3x3 identity as information matrix.  With a
    vertex attached, [computeError] sets the error to the [x], [y], [z]
    coefficients of [q_exp^-1 * q_cur], where [q_exp] is the quaternion of
    the rotation of [s^-1 * m] and [q_cur] the quaternion of the rotation
    of the vertex estimate, and leaves the other members unchanged.  The
    error is the zero vector when [q_cur = q_exp]. *)
Theorem orientation_prior_error (base : EdgeOrientationPrior) (m : Quaternion)
    (s : Transform) (v : VertexSE3) :
  let edge := EdgeOrientationPrior_new base m s in
  let q_exp := Quaternion_of_Matrix3 (linear (rotate (inverse s) m)) in
  let q_cur := Quaternion_of_Matrix3 (linear (estimate v)) in
  _information edge = Matrix3_Identity
  /\ exists edge',
       computeError (setVertex0 edge v) = Some edge'
       /\ _error edge' = vec (qmul (qinverse q_exp) q_cur)
       /\ _information edge' = Matrix3_Identity
       /\ _measurement edge' = m
       /\ _sensor_pose edge' = s
       /\ (q_cur = q_exp -> _error edge' = Vector3_Zero).
Proof.
  cbv zeta. split; [reflexivity |].
  eexists. split; [reflexivity |]. simpl.
  repeat split.
  intro H. rewrite H. apply (qinverse_mul_vec _).
Qed.

End OrientationPrior.

(** ** The embedding on concrete inputs *)

Module Runs.

Import Reference.

(** Two rationals with the same numerator and denominator are equal. *)
Ltac same_rational := apply Qc_decomp; vm_compute; reflexivity.

Lemma accumulation_order_independent_run :
  is_point_cloud (measurement vertex_a) = true
  /\ is_point_cloud (measurement vertex_b) = true
  /\ exists ab ba,
       outcome (getAccumulatedCloud [vertex_a; vertex_b]) = Returns ab
       /\ outcome (getAccumulatedCloud [vertex_b; vertex_a]) = Returns ba
       /\ Permutation ab ba.
Proof.
  split; [reflexivity | split; [reflexivity |]].
  apply (accumulation_order_independent vertex_a vertex_b); reflexivity.
Defined.

Lemma getAccumulatedCloud_run :
  (forall v, In v [vertex_a; vertex_b] -> is_point_cloud (measurement v) = true)
  /\ getAccumulatedCloud [vertex_a; vertex_b]
     = ([], Returns (flat_map cloud_in_map (rev [vertex_a; vertex_b]))).
Proof.
  assert (H : forall v, In v [vertex_a; vertex_b] -> is_point_cloud (measurement v) = true).
  { intros v [<- | [<- | []]]; reflexivity. }
  split; [exact H |].
  exact (proj2 (getAccumulatedCloud_BadMeasurementType [vertex_a; vertex_b]) H).
Defined.

(** One vertex without a point cloud makes the accumulation throw. *)
Lemma getAccumulatedCloud_throws_run :
  fails_with (getAccumulatedCloud [vertex_a; vertex_imu; vertex_b]) BadMeasurementType.
Proof. reflexivity. Qed.

Lemma buildMap_run :
  (forall v, In v [vertex_a; vertex_b] -> is_point_cloud (measurement v) = true)
  /\ exists accu cleaned map_cloud,
       getAccumulatedCloud [vertex_a; vertex_b] = ([], Returns accu)
       /\ outcome (removeOutliers (pcl := recent_pcl) accu
                     (mMapOutlierRadius (sample_sensor 1 GICP 0))
                     (mMapOutlierNeighbors (sample_sensor 1 GICP 0))) = Returns cleaned
       /\ outcome (downsample (pcl := recent_pcl) cleaned
                     (mMapResolution (sample_sensor 1 GICP 0))) = Returns map_cloud
       /\ outcome (buildMap (pcl := recent_pcl) (sample_sensor 1 GICP 0)
                     [vertex_a; vertex_b]) = Returns map_cloud
       /\ calls (buildMap (pcl := recent_pcl) (sample_sensor 1 GICP 0)
                   [vertex_a; vertex_b])
          = calls (removeOutliers (pcl := recent_pcl) accu
                     (mMapOutlierRadius (sample_sensor 1 GICP 0))
                     (mMapOutlierNeighbors (sample_sensor 1 GICP 0)))
            ++ calls (downsample (pcl := recent_pcl) cleaned
                        (mMapResolution (sample_sensor 1 GICP 0))).
Proof.
  assert (H : forall v, In v [vertex_a; vertex_b] -> is_point_cloud (measurement v) = true).
  { intros v [<- | [<- | []]]; reflexivity. }
  split; [exact H |].
  exact (buildMap_composition (pcl := recent_pcl) (sample_sensor 1 GICP 0)
           [vertex_a; vertex_b] H).
Defined.

(** Two dense scans and a converged registration with score 0: [align]
    returns. *)
Lemma align_succeeds_run :
  ((100 <= List.length (getPointCloud scan))%nat
   /\ (100 <= List.length (getPointCloud scan))%nat
   /\ hasConverged (registration_of (pcl := recent_pcl) (sample_parameters GICP 0)
                      (getPointCloud scan) (getPointCloud scan) Identity) = true
   /\ (getFitnessScore
         (registration_of (pcl := recent_pcl) (sample_parameters GICP 0)
            (getPointCloud scan) (getPointCloud scan) Identity)
         (max_correspondence_distance (sample_parameters GICP 0))
       <= max_fitness_score (sample_parameters GICP 0))%Qc)
  /\ succeeds (align (pcl := recent_pcl) scan scan Identity (sample_parameters GICP 0)).
Proof.
  assert (H : (100 <= List.length (getPointCloud scan))%nat
              /\ (100 <= List.length (getPointCloud scan))%nat
              /\ hasConverged (registration_of (pcl := recent_pcl) (sample_parameters GICP 0)
                                 (getPointCloud scan) (getPointCloud scan) Identity) = true
              /\ (getFitnessScore
                    (registration_of (pcl := recent_pcl) (sample_parameters GICP 0)
                       (getPointCloud scan) (getPointCloud scan) Identity)
                    (max_correspondence_distance (sample_parameters GICP 0))
                  <= max_fitness_score (sample_parameters GICP 0))%Qc).
  { split; [vm_compute; lia | split; [vm_compute; lia | split; [reflexivity |]]].
    vm_compute. discriminate. }
  split; [exact H |].
  exact (proj2 (proj1 (proj2
           (align_NoMatch_exactly (pcl := recent_pcl) scan scan Identity
              (sample_parameters GICP 0)))) H).
Defined.

(** A scan of 99 points is rejected with [NoMatch]. *)
Lemma align_too_few_run :
  fails_with (align (pcl := recent_pcl) (sample_cloud 99 Identity) scan Identity
                (sample_parameters NDT 0))
             (NoMatch TooFewPoints).
Proof. reflexivity. Qed.

(** C2 on a concrete input: [point_cloud_density] is 1, both scans have
    100 points in one voxel, so each downsampled cloud has a single point.
    [align] calls the voxel grid on both scans, then registers the
    unfiltered 100-point scans and returns, where working on the
    downsampled clouds would end in [NoMatch] for too few points. *)
Theorem align_registers_unfiltered_clouds :
  let config := sample_parameters GICP 1 in
  let cloud := getPointCloud scan in
  let run := align (pcl := recent_pcl) scan scan Identity config in
  gtb (point_cloud_density config) 0 = true
  /\ voxel_inputs (calls run) = [cloud; cloud]
  /\ List.length (VoxelGrid_filter (PCL := recent_pcl) (point_cloud_density config) cloud)
     = 1%nat
  /\ registrations (calls run) = [(cloud, cloud)]
  /\ outcome run = Returns Identity.
Proof.
  cbv zeta. repeat split; vm_compute; reflexivity.
Qed.

(** GICP against an old PCL, with a guess that translates by one unit:
    the library's source input is the target scan already moved by the
    guess, point for point different from the target scan. *)
Lemma library_source_is_shifted_target :
  let run := align (pcl := old_pcl) scan scan (translate 1 0 0) (sample_parameters GICP 0) in
  exists input_source input_target,
    registrations (calls run) = [(input_source, input_target)]
    /\ input_target = getPointCloud scan
    /\ input_source <> getPointCloud scan.
Proof.
  cbv zeta.
  exists (transformPointCloud (getPointCloud scan) (translate 1 0 0)), (getPointCloud scan).
  split; [| split].
  - vm_compute. reflexivity.
  - reflexivity.
  - intro H. apply (f_equal (map (fun p => this (vx p)))) in H.
    vm_compute in H. discriminate.
Qed.

(** With a recent PCL the same run passes the target scan itself. *)
Lemma library_source_is_target_run :
  registrations
    (calls (align (pcl := recent_pcl) scan scan (translate 1 0 0) (sample_parameters GICP 0)))
  = [(getPointCloud scan, getPointCloud scan)].
Proof. vm_compute. reflexivity. Qed.

(** C4 as stated fails: with covariance scale 2 the constraint returned
    carries a matrix with 1/2 on the diagonal, not 2. *)
Lemma constraint_matrix_is_not_covariance :
  let sensor := sample_sensor (of_Z 2) GICP 0 in
  exists c,
    outcome (createConstraint (pcl := recent_pcl) (eigen := eigen) sensor
               (IsPointCloud scan) (IsPointCloud scan) Identity false) = Returns c
    /\ constraint_information c
       <> Matrix_scale (Matrix_Identity 6) (mCovarianceScale sensor)
    /\ map (map this) (constraint_information c)
       = map (map this) (Matrix_scale (Matrix_Identity 6) (Q2Qc (1 # 2))).
Proof.
  cbv zeta. exists scan_constraint. split; [| split].
  - vm_compute. reflexivity.
  - intro H. apply (f_equal (map (map this))) in H. vm_compute in H. discriminate.
  - vm_compute. reflexivity.
Qed.

Lemma constraint_carries_inverse_run :
  outcome (createConstraint (pcl := recent_pcl) (eigen := eigen)
             (sample_sensor (of_Z 2) GICP 0)
             (IsPointCloud scan) (IsPointCloud scan) Identity false)
  = Returns scan_constraint
  /\ constraint_information scan_constraint
     = Matrix_inverse (Eigen := eigen)
         (Matrix_scale (Matrix_Identity 6)
                       (mCovarianceScale (sample_sensor (of_Z 2) GICP 0))).
Proof.
  assert (H : outcome (createConstraint (pcl := recent_pcl) (eigen := eigen)
                         (sample_sensor (of_Z 2) GICP 0)
                         (IsPointCloud scan) (IsPointCloud scan) Identity false)
              = Returns scan_constraint).
  { vm_compute. reflexivity. }
  split; [exact H |].
  exact (constraint_carries_inverse (pcl := recent_pcl) (eigen := eigen)
           (sample_sensor (of_Z 2) GICP 0) (IsPointCloud scan) (IsPointCloud scan)
           Identity false H).
Defined.

(** With the loop flag, the coarse alignment runs first: two registration
    calls instead of one. *)
Lemma createConstraint_loop_run :
  List.length (registrations (calls
    (createConstraint (pcl := recent_pcl) (eigen := eigen) (sample_sensor 1 GICP 0)
       (IsPointCloud scan) (IsPointCloud scan) Identity true))) = 2%nat
  /\ List.length (registrations (calls
       (createConstraint (pcl := recent_pcl) (eigen := eigen) (sample_sensor 1 GICP 0)
          (IsPointCloud scan) (IsPointCloud scan) Identity false))) = 1%nat.
Proof. split; vm_compute; reflexivity. Qed.

(** An edge whose vertex has the expected orientation: zero error. *)
Lemma orientation_prior_error_run :
  let edge := G2o.EdgeOrientationPrior_new blank_edge Quaternion_Identity Identity in
  let v := G2o.mkVertexSE3 Identity in
  Quaternion_of_Matrix3 (Eigen := eigen) (linear (G2o.estimate v))
  = Quaternion_of_Matrix3 (Eigen := eigen)
      (linear (rotate (inverse Identity) Quaternion_Identity))
  /\ exists edge',
       G2o.computeError (eigen := eigen) (G2o.setVertex0 edge v) = Some edge'
       /\ G2o._error edge' = Vector3_Zero.
Proof.
  cbv zeta.
  assert (H : Quaternion_of_Matrix3 (Eigen := eigen)
                (linear (G2o.estimate (G2o.mkVertexSE3 Identity)))
              = Quaternion_of_Matrix3 (Eigen := eigen)
                  (linear (rotate (inverse Identity) Quaternion_Identity))).
  { vm_compute. f_equal; same_rational. }
  split; [exact H |].
  destruct (orientation_prior_error (eigen := eigen) blank_edge Quaternion_Identity
              Identity (G2o.mkVertexSE3 Identity))
    as [_ [edge' [Hc [_ [_ [_ [_ Hz]]]]]]].
  exists edge'. split; [exact Hc | exact (Hz H)].
Defined.

(** A vertex turned by a half turn about the z axis: the error is the
    vector part of the relative rotation, here [(0, 0, 1)]. *)
Lemma orientation_prior_half_turn_run :
  let edge := G2o.EdgeOrientationPrior_new blank_edge Quaternion_Identity Identity in
  let half_turn :=
    mkTransform (mkMatrix3 (mkVector3 (- (1)) 0 0) (mkVector3 0 (- (1)) 0) (mkVector3 0 0 1))
                Vector3_Zero in
  exists edge',
    G2o.computeError (eigen := eigen) (G2o.setVertex0 edge (G2o.mkVertexSE3 half_turn))
    = Some edge'
    /\ (this (vx (G2o._error edge')), this (vy (G2o._error edge')),
        this (vz (G2o._error edge'))) = (0%Q, 0%Q, 1%Q).
Proof.
  cbv zeta. eexists. split; [reflexivity |]. vm_compute. reflexivity.
Qed.

End Runs.

(** * Further properties *)

(** ** Algebra of isometries *)

(** Equality of two isometries, coefficient by coefficient. *)
Ltac transform_components :=
  unfold compose, mul_mat, mul_vec, vadd, dot, col0, col1, col2; simpl;
  apply f_equal2;
    [apply f_equal3; apply f_equal3; change Scalar with Qc; ring
    | apply f_equal3; change Scalar with Qc; ring].

Lemma compose_assoc (a b c : Transform) :
  (a * (b * c))%tf = (a * b * c)%tf.
Proof.
  destruct a as [[[a00 a01 a02] [a10 a11 a12] [a20 a21 a22]] [ax ay az]].
  destruct b as [[[b00 b01 b02] [b10 b11 b12] [b20 b21 b22]] [bx by' bz]].
  destruct c as [[[c00 c01 c02] [c10 c11 c12] [c20 c21 c22]] [cx cy cz]].
  transform_components.
Qed.

Lemma compose_Identity_l (a : Transform) : (Identity * a)%tf = a.
Proof.
  destruct a as [[[a00 a01 a02] [a10 a11 a12] [a20 a21 a22]] [ax ay az]].
  transform_components.
Qed.

Lemma compose_Identity_r (a : Transform) : (a * Identity)%tf = a.
Proof.
  destruct a as [[[a00 a01 a02] [a10 a11 a12] [a20 a21 a22]] [ax ay az]].
  transform_components.
Qed.

Lemma apply_Identity (p : Vector3) : apply Identity p = p.
Proof.
  destruct p as [x y z]. unfold apply, mul_vec, vadd, dot; simpl. f_equal; ring.
Qed.

Lemma mul_vec_mul_mat (a b : Matrix3) (v : Vector3) :
  mul_vec a (mul_vec b v) = mul_vec (mul_mat a b) v.
Proof.
  destruct a as [[a00 a01 a02] [a10 a11 a12] [a20 a21 a22]].
  destruct b as [[b00 b01 b02] [b10 b11 b12] [b20 b21 b22]].
  destruct v as [x y z].
  unfold mul_mat, mul_vec, dot, col0, col1, col2; simpl. f_equal; ring.
Qed.

Lemma mul_vec_vopp (a : Matrix3) (v : Vector3) :
  mul_vec a (vopp v) = vopp (mul_vec a v).
Proof.
  destruct a as [[a00 a01 a02] [a10 a11 a12] [a20 a21 a22]].
  destruct v as [x y z].
  unfold mul_vec, vopp, dot; simpl. f_equal; ring.
Qed.

Lemma mul_vec_Identity (v : Vector3) : mul_vec Matrix3_Identity v = v.
Proof.
  destruct v as [x y z]. unfold mul_vec, dot; simpl. f_equal; ring.
Qed.

Lemma vadd_vopp_l (v : Vector3) : vadd (vopp v) v = Vector3_Zero.
Proof.
  destruct v as [x y z]. unfold vadd, vopp, Vector3_Zero; simpl. f_equal; ring.
Qed.

(** For an isometry, [t * t.inverse()] is the identity. *)
Lemma compose_inverse_r (t : Transform) :
  is_isometry t -> (t * inverse t)%tf = Identity.
Proof.
  unfold is_isometry. intro H.
  unfold compose, inverse, Identity; simpl. rewrite H.
  rewrite mul_vec_vopp, mul_vec_mul_mat, H, mul_vec_Identity, vadd_vopp_l.
  reflexivity.
Qed.

Lemma transformPointCloud_Identity (cloud : PointCloud) :
  transformPointCloud cloud Identity = cloud.
Proof.
  unfold transformPointCloud. rewrite <- (map_id cloud) at 2.
  apply map_ext. apply apply_Identity.
Qed.

(** ** [transform], [getAccumulatedCloud], [createCombinedMeasurement] *)

Lemma forallb_Permutation {X} (f : X -> bool) (l l' : list X) :
  Permutation l l' -> forallb f l = forallb f l'.
Proof.
  induction 1; simpl; try congruence.
  destruct (f x), (f y); reflexivity.
Qed.

(** X1.  Reordering the vertex list does not change whether
    [getAccumulatedCloud] throws, and when it returns, the two clouds are
    permutations of each other. *)
Theorem getAccumulatedCloud_Permutation (l l' : VertexObjectList) :
  Permutation l l' ->
  (fails_with (getAccumulatedCloud l) BadMeasurementType
   <-> fails_with (getAccumulatedCloud l') BadMeasurementType)
  /\ forall c, outcome (getAccumulatedCloud l) = Returns c ->
       exists c', outcome (getAccumulatedCloud l') = Returns c' /\ Permutation c c'.
Proof.
  intro H. rewrite !getAccumulatedCloud_spec.
  rewrite (forallb_Permutation (fun v => is_point_cloud (measurement v)) H).
  unfold fails_with.
  destruct (forallb _ l'); simpl; split.
  - split; discriminate.
  - intros c Hc. injection Hc as <-. eexists. split; [reflexivity |].
    now apply accumulation_permutation.
  - tauto.
  - intros c Hc. discriminate.
Qed.

(** X2.  Accumulating a concatenated list: when both parts accumulate, the
    whole accumulates to the cloud of the second part followed by the
    cloud of the first. *)
Theorem getAccumulatedCloud_app (l1 l2 : VertexObjectList) (c1 c2 : PointCloud) :
  outcome (getAccumulatedCloud l1) = Returns c1 ->
  outcome (getAccumulatedCloud l2) = Returns c2 ->
  outcome (getAccumulatedCloud (l1 ++ l2)) = Returns (c2 ++ c1).
Proof.
  rewrite !getAccumulatedCloud_spec, forallb_app.
  destruct (forallb _ l1); [| discriminate].
  destruct (forallb _ l2); [| discriminate]. simpl.
  intros H1 H2. injection H1 as <-. injection H2 as <-.
  now rewrite rev_app_distr, flat_map_app.
Qed.

Lemma length_cloud_in_map (v : VertexObject) :
  List.length (cloud_in_map v) = cloud_size v.
Proof.
  unfold cloud_in_map, cloud_size.
  destruct (measurement v); [apply length_map | reflexivity].
Qed.

Lemma length_flat_map_cloud_in_map (l : list VertexObject) :
  List.length (flat_map cloud_in_map l) = list_sum (map cloud_size l).
Proof.
  induction l as [| v l IH]; simpl; [reflexivity |].
  now rewrite length_app, length_cloud_in_map, IH.
Qed.

Lemma list_sum_rev (l : list nat) : list_sum (rev l) = list_sum l.
Proof.
  induction l as [| x l IH]; simpl; [reflexivity |].
  rewrite list_sum_app, IH. simpl. lia.
Qed.

(** X3.  The accumulated cloud has exactly as many points as the clouds of
    the vertices together: accumulation neither drops nor adds a point. *)
Theorem getAccumulatedCloud_size (vertices : VertexObjectList) (c : PointCloud) :
  outcome (getAccumulatedCloud vertices) = Returns c ->
  List.length c = list_sum (map cloud_size vertices).
Proof.
  rewrite getAccumulatedCloud_spec.
  destruct (forallb _ vertices); [| discriminate].
  intro H. injection H as <-.
  now rewrite length_flat_map_cloud_in_map, map_rev, list_sum_rev.
Qed.

Lemma cloud_in_map_move_vertex (frame : Transform) (v : VertexObject) :
  cloud_in_map (move_vertex frame v) = transformPointCloud (cloud_in_map v) frame.
Proof.
  unfold cloud_in_map, move_vertex, transformPointCloud; simpl.
  destruct (measurement v) as [pc | b]; [| reflexivity].
  rewrite map_map. apply map_ext. intro p.
  now rewrite <- compose_assoc, apply_compose.
Qed.

Lemma flat_map_move_vertex (frame : Transform) (l : list VertexObject) :
  flat_map cloud_in_map (map (move_vertex frame) l)
  = transformPointCloud (flat_map cloud_in_map l) frame.
Proof.
  induction l as [| v l IH]; simpl; [reflexivity |].
  rewrite IH, cloud_in_map_move_vertex. unfold transformPointCloud.
  now rewrite map_app.
Qed.

Lemma forallb_move_vertex (frame : Transform) (l : list VertexObject) :
  forallb (fun v => is_point_cloud (measurement v)) (map (move_vertex frame) l)
  = forallb (fun v => is_point_cloud (measurement v)) l.
Proof.
  induction l as [| v l IH]; simpl; [reflexivity |]. now rewrite IH.
Qed.

(** X4.  In exact arithmetic (the rounding of the code's [float] points
    is not modelled), accumulation commutes with a change of map frame:
    when every corrected pose is multiplied on the left by [frame], the
    accumulation ends the same way and a returned cloud is the former
    cloud moved by [frame]. *)
Theorem getAccumulatedCloud_change_of_frame (frame : Transform)
    (vertices : VertexObjectList) :
  getAccumulatedCloud (map (move_vertex frame) vertices)
  = match outcome (getAccumulatedCloud vertices) with
    | Returns c => ([], Returns (transformPointCloud c frame))
    | Throws e => ([], Throws e)
    end.
Proof.
  rewrite !getAccumulatedCloud_spec, forallb_move_vertex.
  destruct (forallb _ vertices); simpl; [| reflexivity].
  now rewrite <- map_rev, flat_map_move_vertex.
Qed.

(** X5.  [createCombinedMeasurement] throws [BadMeasurementType] exactly
    when some vertex has no point cloud.  Otherwise it returns, without
    calling a PCL filter or registration algorithm, a point-cloud
    measurement named after the sensor, with the identity as sensor pose,
    whose cloud is the accumulated cloud moved by [pose.inverse()]. *)
Theorem createCombinedMeasurement_result (sensor : PointCloudSensor)
    (vertices : VertexObjectList) (pose : Transform) :
  (fails_with (createCombinedMeasurement sensor vertices pose) BadMeasurementType
   <-> exists v, In v vertices /\ is_point_cloud (measurement v) = false)
  /\ ((forall v, In v vertices -> is_point_cloud (measurement v) = true) ->
      createCombinedMeasurement sensor vertices pose
      = ([], Returns
               (IsPointCloud
                  {| pc_base :=
                       mkMeasurementBase "AccumulatedPointcloud" (mName sensor) Identity;
                     mPointCloud :=
                       transformPointCloud (flat_map cloud_in_map (rev vertices))
                                           (inverse pose) |}))).
Proof.
  unfold createCombinedMeasurement. rewrite getAccumulatedCloud_spec. split.
  - rewrite <- not_all_point_clouds. unfold fails_with.
    destruct (forallb _ vertices); simpl; split; congruence.
  - intro H. apply forallb_forall in H. now rewrite H.
Qed.

(** X6.  In exact arithmetic (the rounding of the code's [float] points
    is not modelled), the combined measurement round-trips: for an
    isometry [pose], a single vertex that carries the combined measurement
    at corrected pose [pose] accumulates to the very cloud that the
    original vertices accumulate to. *)
Theorem createCombinedMeasurement_round_trip (sensor : PointCloudSensor)
    (vertices : VertexObjectList) (pose : Transform) (m : Measurement) (name : string) :
  is_isometry pose ->
  outcome (createCombinedMeasurement sensor vertices pose) = Returns m ->
  getAccumulatedCloud [mkVertexObject name pose m] = getAccumulatedCloud vertices.
Proof.
  intros Hiso. unfold createCombinedMeasurement.
  rewrite (getAccumulatedCloud_spec vertices).
  destruct (forallb _ vertices); [| discriminate].
  unfold bind; simpl. intro H. injection H as <-.
  rewrite getAccumulatedCloud_spec. simpl.
  unfold cloud_in_map; simpl. rewrite app_nil_r, compose_Identity_r.
  change (map (apply pose) ?c) with (transformPointCloud c pose).
  rewrite <- transformPointCloud_compose, (compose_inverse_r Hiso).
  now rewrite transformPointCloud_Identity.
Qed.

Section MapBuilding.

Context {pcl : PCL}.

(** X7.  [buildMap] throws [BadMeasurementType] exactly when some vertex
    has no point cloud, returns a cloud exactly when every vertex has one,
    and never throws [NoMatch]. *)
Theorem buildMap_failures (sensor : PointCloudSensor) (vertices : VertexObjectList) :
  (fails_with (buildMap sensor vertices) BadMeasurementType
   <-> exists v, In v vertices /\ is_point_cloud (measurement v) = false)
  /\ (succeeds (buildMap sensor vertices)
      <-> forall v, In v vertices -> is_point_cloud (measurement v) = true)
  /\ forall reason, ~ fails_with (buildMap sensor vertices) (NoMatch reason).
Proof.
  unfold buildMap, fails_with, succeeds. rewrite getAccumulatedCloud_spec.
  rewrite <- not_all_point_clouds, <- forallb_forall.
  destruct (forallb _ vertices) eqn:Hall.
  - change ([], Returns ?c) with (ret (A := PointCloud) c). rewrite bind_ret.
    set (accu := flat_map cloud_in_map (rev vertices)).
    destruct (removeOutliers_returns accu (mMapOutlierRadius sensor)
                (mMapOutlierNeighbors sensor)) as [cleaned Hc].
    destruct (downsample_returns cleaned (mMapResolution sensor)) as [out Ho].
    rewrite (bind_returns _ _ Hc). simpl. rewrite Ho.
    split; [| split].
    + split; discriminate.
    + split; [reflexivity | eauto].
    + discriminate.
  - simpl. split; [| split].
    + split; reflexivity.
    + split; [intros [a Ha]; discriminate | discriminate].
    + discriminate.
Qed.

Lemma flat_map_nil {X Y} (f : X -> list Y) (l : list X) :
  (forall x, In x l -> f x = []) -> flat_map f l = [].
Proof.
  induction l as [| x l IH]; simpl; intro H; [reflexivity |].
  rewrite (H x (or_introl eq_refl)), IH; auto.
Qed.

(** X8.  A map of nothing: when no vertex contributes a point (in
    particular for the empty list), [buildMap] returns the empty cloud
    and calls neither PCL filter. *)
Theorem buildMap_without_points (sensor : PointCloudSensor) (vertices : VertexObjectList) :
  (forall v, In v vertices ->
     is_point_cloud (measurement v) = true /\ cloud_size v = 0%nat) ->
  buildMap sensor vertices = ([], Returns []).
Proof.
  intro H. unfold buildMap. rewrite getAccumulatedCloud_spec.
  replace (forallb _ vertices) with true
    by (symmetry; apply forallb_forall; intros v Hv; apply (H v Hv)).
  rewrite flat_map_nil; [reflexivity |].
  intros v Hv. apply in_rev in Hv. destruct (H v Hv) as [_ Hs].
  apply length_zero_iff_nil. now rewrite length_cloud_in_map.
Qed.

End MapBuilding.

(** ** Registration and constraints, further *)

Lemma calls_bind {A B} (m : M A) (k : A -> M B) :
  calls (bind m k)
  = calls m ++ match outcome m with
               | Returns a => calls (k a)
               | Throws _ => []
               end.
Proof.
  unfold bind. destruct (outcome m); simpl; [reflexivity | now rewrite app_nil_r].
Qed.

Lemma outcome_bind {A B} (m : M A) (k : A -> M B) :
  outcome (bind m k)
  = match outcome m with
    | Returns a => outcome (k a)
    | Throws e => Throws e
    end.
Proof. unfold bind. now destruct (outcome m). Qed.

Section RegistrationFurther.

Context {pcl : PCL}.

Lemma library_source_input_length (config : RegistrationParameters)
    (target : PointCloud) (guess : Transform) :
  List.length (library_source_input config target guess) = List.length target.
Proof.
  unfold library_source_input.
  destruct (registration_algorithm config); [| reflexivity].
  destruct PCL_VERSION_before_1_8_1; [apply transformPointCloud_length | reflexivity].
Qed.

Lemma registrations_registration_call (config : RegistrationParameters)
    (source target : PointCloud) (guess : Transform) :
  registrations [registration_call config source target guess]
  = [(library_source_input config target guess, source)].
Proof.
  unfold registration_call, library_source_input.
  destruct (registration_algorithm config); reflexivity.
Qed.

(** The registration calls of one [align]: none, or one on dense
    clouds. *)
Lemma align_registrations (source target : PointCloudMeasurement) (guess : Transform)
    (config : RegistrationParameters) :
  Forall dense_inputs (registrations (calls (align source target guess config)))
  /\ (List.length (registrations (calls (align source target guess config))) <= 1)%nat.
Proof.
  rewrite align_cases. cbv zeta.
  destruct (too_few_points _ _) eqn:Hfew; simpl.
  - rewrite density_calls_no_registration. split; [constructor | simpl; lia].
  - rewrite registrations_app, density_calls_no_registration,
      registrations_registration_call. simpl.
    apply too_few_points_false in Hfew. split; [| lia].
    constructor; [| constructor].
    unfold dense_inputs; simpl. rewrite library_source_input_length. exact Hfew.
Qed.

Lemma align_never_BadMeasurementType (source target : PointCloudMeasurement)
    (guess : Transform) (config : RegistrationParameters) :
  ~ fails_with (align source target guess config) BadMeasurementType.
Proof.
  rewrite align_cases. cbv zeta. unfold fails_with.
  destruct (too_few_points _ _); simpl; [discriminate |].
  destruct (rejectedb _ _); discriminate.
Qed.

(** X12.  [point_cloud_density] has no influence on what [align] returns
    or throws, nor on the clouds it registers: two configurations that
    differ in this field only give the same outcome and the same
    registration inputs. *)
Theorem align_ignores_density (source target : PointCloudMeasurement)
    (guess : Transform) (config : RegistrationParameters) (d1 d2 : Scalar) :
  outcome (align source target guess (with_density config d1))
  = outcome (align source target guess (with_density config d2))
  /\ registrations (calls (align source target guess (with_density config d1)))
     = registrations (calls (align source target guess (with_density config d2))).
Proof.
  destruct (align_density_irrelevant source target guess config d1) as [Ho1 Hr1].
  destruct (align_density_irrelevant source target guess config d2) as [Ho2 Hr2].
  split; congruence.
Qed.

End RegistrationFurther.

Section ConstraintsFurther.

Context {pcl : PCL} {eigen : Eigen}.

(** X9.  [createConstraint] never hands the registration library a cloud
    with fewer than 100 points, and it registers at most once without the
    loop flag and at most twice with it. *)
Theorem createConstraint_dense_registrations (sensor : PointCloudSensor)
    (source target : Measurement) (odometry : Transform) (loop : bool) :
  Forall dense_inputs
         (registrations (calls (createConstraint sensor source target odometry loop)))
  /\ (List.length
        (registrations (calls (createConstraint sensor source target odometry loop)))
      <= if loop then 2 else 1)%nat.
Proof.
  unfold createConstraint.
  destruct (dynamic_pointer_cast source) as [sc |];
    [| simpl; split; [constructor | destruct loop; lia]].
  destruct (dynamic_pointer_cast target) as [tc |];
    [| simpl; split; [constructor | destruct loop; lia]].
  set (g := (getInverseSensorPose source * odometry * getSensorPose target)%tf).
  rewrite calls_bind, registrations_app.
  assert (Hfine : forall g0,
    Forall dense_inputs
      (registrations (calls
         (icp_result <- align sc tc g0 (mFineConfiguration sensor) ;;
          ret (mkSE3Constraint (mName sensor)
                 (getSensorPose source * icp_result * getInverseSensorPose target)%tf
                 (Matrix_inverse
                    (Matrix_scale (Matrix_Identity 6) (mCovarianceScale sensor)))))))
    /\ (List.length
          (registrations (calls
             (icp_result <- align sc tc g0 (mFineConfiguration sensor) ;;
              ret (mkSE3Constraint (mName sensor)
                     (getSensorPose source * icp_result * getInverseSensorPose target)%tf
                     (Matrix_inverse
                        (Matrix_scale (Matrix_Identity 6) (mCovarianceScale sensor)))))))
        <= 1)%nat).
  { intro g0. rewrite calls_bind, registrations_app.
    destruct (align_registrations sc tc g0 (mFineConfiguration sensor)) as [Hd Hl].
    destruct (outcome (align sc tc g0 (mFineConfiguration sensor))); simpl;
      rewrite app_nil_r; split; assumption. }
  destruct loop.
  - destruct (align_registrations sc tc g (mCoarseConfiguration sensor)) as [Hd Hl].
    destruct (outcome (align sc tc g (mCoarseConfiguration sensor))) as [g1 | e].
    + destruct (Hfine g1) as [Hd1 Hl1]. split.
      * apply Forall_app. split; assumption.
      * rewrite length_app. lia.
    + simpl. rewrite app_nil_r. split; [assumption | lia].
  - simpl. apply Hfine.
Qed.

(** On two point clouds, [createConstraint] cannot throw
    [BadMeasurementType]. *)
Lemma createConstraint_point_clouds (sensor : PointCloudSensor)
    (sc tc : PointCloudMeasurement) (odometry : Transform) (loop : bool) :
  ~ fails_with (createConstraint sensor (IsPointCloud sc) (IsPointCloud tc) odometry loop)
               BadMeasurementType.
Proof.
  unfold fails_with, createConstraint. simpl dynamic_pointer_cast. cbv iota beta.
  rewrite outcome_bind. intro H.
  set (g := (getInverseSensorPose (IsPointCloud sc) * odometry
             * getSensorPose (IsPointCloud tc))%tf) in H.
  assert (Hfine : forall g0,
    outcome (icp_result <- align sc tc g0 (mFineConfiguration sensor) ;;
             ret (mkSE3Constraint (mName sensor)
                    (getSensorPose (IsPointCloud sc) * icp_result
                     * getInverseSensorPose (IsPointCloud tc))%tf
                    (Matrix_inverse
                       (Matrix_scale (Matrix_Identity 6) (mCovarianceScale sensor)))))
    <> Throws BadMeasurementType).
  { intro g0. rewrite outcome_bind.
    pose proof (align_never_BadMeasurementType sc tc g0 (mFineConfiguration sensor))
      as Hn. unfold fails_with in Hn.
    destruct (outcome (align sc tc g0 (mFineConfiguration sensor))); simpl;
      [discriminate | congruence]. }
  destruct loop.
  - pose proof (align_never_BadMeasurementType sc tc g (mCoarseConfiguration sensor))
      as Hn. unfold fails_with in Hn.
    destruct (outcome (align sc tc g (mCoarseConfiguration sensor))) as [g1 | e].
    + exact (Hfine g1 H).
    + congruence.
  - simpl in H. exact (Hfine g H).
Qed.

(** X10.  [createConstraint] throws [BadMeasurementType] exactly when one
    of the two measurements is not a point cloud, and then it has made no
    PCL call. *)
Theorem createConstraint_BadMeasurementType_iff (sensor : PointCloudSensor)
    (source target : Measurement) (odometry : Transform) (loop : bool) :
  (fails_with (createConstraint sensor source target odometry loop) BadMeasurementType
   <-> is_point_cloud source && is_point_cloud target = false)
  /\ (is_point_cloud source && is_point_cloud target = false ->
      calls (createConstraint sensor source target odometry loop) = []).
Proof.
  split.
  - split.
    + destruct source as [sc | b], target as [tc | b']; simpl; try reflexivity.
      intro H. exfalso. exact (createConstraint_point_clouds _ _ _ _ _ H).
    + intro H. now rewrite (createConstraint_BadMeasurementType _ _ _ _ _ H).
  - intro H. now rewrite (createConstraint_BadMeasurementType _ _ _ _ _ H).
Qed.

(** X11.  In exact arithmetic (the rounding of the code's [double] and
    [float] values is not modelled), the change to the sensor frame and
    back cancels: for sensor poses that are isometries, when the fine
    alignment hands back the guess it was given, the constraint of a
    non-loop [createConstraint] carries exactly the odometry. *)
Theorem createConstraint_returns_odometry (sensor : PointCloudSensor)
    (source target : PointCloudMeasurement) (odometry : Transform) :
  let s := IsPointCloud source in
  let t := IsPointCloud target in
  let g := (inverse (getSensorPose s) * odometry * getSensorPose t)%tf in
  is_isometry (getSensorPose s) ->
  is_isometry (getSensorPose t) ->
  outcome (align source target g (mFineConfiguration sensor)) = Returns g ->
  exists c,
    outcome (createConstraint sensor s t odometry false) = Returns c
    /\ constraint_transform c = odometry.
Proof.
  cbv zeta. intros Hs Ht Hfine.
  unfold createConstraint, getInverseSensorPose.
  simpl dynamic_pointer_cast. cbv iota beta.
  rewrite bind_ret, outcome_bind, Hfine. simpl.
  eexists. split; [reflexivity |]. simpl.
  rewrite (compose_assoc (getSensorPose (IsPointCloud source))).
  rewrite (compose_assoc (getSensorPose (IsPointCloud source))).
  rewrite (compose_inverse_r Hs), compose_Identity_l.
  rewrite <- compose_assoc, (compose_inverse_r Ht).
  apply compose_Identity_r.
Qed.

(** X18.  Combined measurements are accepted by [createConstraint]: for
    two measurements returned by [createCombinedMeasurement],
    [createConstraint] does not throw [BadMeasurementType]. *)
Theorem combined_measurements_accepted (sensor sensor1 sensor2 : PointCloudSensor)
    (vertices1 vertices2 : VertexObjectList) (pose1 pose2 : Transform)
    (m1 m2 : Measurement) (odometry : Transform) (loop : bool) :
  outcome (createCombinedMeasurement sensor1 vertices1 pose1) = Returns m1 ->
  outcome (createCombinedMeasurement sensor2 vertices2 pose2) = Returns m2 ->
  ~ fails_with (createConstraint sensor m1 m2 odometry loop) BadMeasurementType.
Proof.
  unfold createCombinedMeasurement. rewrite !outcome_bind.
  destruct (outcome (getAccumulatedCloud vertices1)); [| discriminate].
  destruct (outcome (getAccumulatedCloud vertices2)); [| discriminate].
  simpl. intros H1 H2. injection H1 as <-. injection H2 as <-.
  apply createConstraint_point_clouds.
Qed.

(** X16.  The members are read separately: without the loop flag
    [createConstraint] does not read the coarse parameters, it never reads
    the map parameters, and [buildMap] reads neither registration
    parameters. *)
Theorem configuration_separation (sensor : PointCloudSensor)
    (conf : RegistrationParameters) (r : Scalar) (n : N)
    (source target : Measurement) (odometry : Transform)
    (vertices : VertexObjectList) :
  createConstraint (setRegistrationParameters sensor conf true)
                   source target odometry false
  = createConstraint sensor source target odometry false
  /\ (forall loop,
        createConstraint (setMapOutlierRemoval (setMapResolution sensor r) r n)
                         source target odometry loop
        = createConstraint sensor source target odometry loop)
  /\ (forall coarse,
        buildMap (setRegistrationParameters sensor conf coarse) vertices
        = buildMap sensor vertices).
Proof.
  split; [reflexivity | split].
  - intro loop. reflexivity.
  - intros []; reflexivity.
Qed.

(** X15.  The earlier [calculateTransform], on two point-cloud
    measurements of any size: it filters both clouds, registers the
    filtered clouds (the target moved by the guess) and has no size test;
    it throws [NoMatch] exactly when GICP does not converge or the score
    exceeds [max_fitness_score], and returns otherwise. *)
Theorem Legacy_calculateTransform_outcomes (sensor : Legacy.PointCloudSensor)
    (source target : PointCloudMeasurement) (odometry : Transform) (coarse : bool) :
  let s := IsPointCloud source in
  let t := IsPointCloud target in
  let cs := getPointCloud source in
  let ct := getPointCloud target in
  let config :=
    if coarse then Legacy.mCoarseConfiguration sensor
    else Legacy.mFineConfiguration sensor in
  let g := (inverse (getSensorPose s) * odometry * getSensorPose t)%tf in
  let r := legacy_registration config cs ct g in
  let run := Legacy.calculateTransform sensor s t odometry coarse in
  voxel_inputs (calls run) = [cs; ct]
  /\ registrations (calls run)
     = [(transformPointCloud (VoxelGrid_filter (point_cloud_density config) ct) g,
         VoxelGrid_filter (point_cloud_density config) cs)]
  /\ ((exists reason, fails_with run (NoMatch reason)) <-> legacy_rejected config r)
  /\ (succeeds run
      <-> hasConverged r = true
          /\ (getFitnessScore r Legacy.numeric_limits_double_max
              <= max_fitness_score config)%Qc).
Proof.
  cbv zeta. rewrite Legacy_calculateTransform_frames. cbv zeta.
  unfold legacy_registration, legacy_rejected, fails_with, succeeds.
  split; [reflexivity | split; [reflexivity |]]. simpl.
  match goal with |- context [negb ?a || gtb ?b ?c] =>
    destruct (negb a || gtb b c) eqn:Hrej end.
  - apply orb_true_iff in Hrej. rewrite negb_true_iff, gtb_gt in Hrej. split.
    + split; [intros _; exact Hrej | eauto].
    + split; [intros [a Ha]; discriminate |].
      intros [Hc Hs]. exfalso. destruct Hrej as [Hn | Hgt]; [congruence |].
      eapply Qclt_not_le; eassumption.
  - apply orb_false_iff in Hrej. rewrite negb_false_iff, gtb_false_le in Hrej. split.
    + split; [intros [reason Hr]; discriminate |].
      destruct Hrej as [Hc Hs]. intros [Hn | Hgt]; [congruence |].
      exfalso. eapply Qclt_not_le; eassumption.
    + split; [intros _; exact Hrej | eauto].
Qed.

End ConstraintsFurther.

(** ** The orientation prior edge, further *)

(** Equality of two quaternions, coefficient by coefficient. *)
Ltac quaternion_components :=
  apply f_equal4; change Scalar with Qc; ring.

Lemma qmul_conjugate_cancel (q p : Quaternion) :
  qmul q (qmul (conjugate q) p) = qscale (squaredNorm q) p.
Proof.
  destruct q as [w x y z], p as [pw px py pz].
  unfold qmul, conjugate, qscale, squaredNorm; simpl. quaternion_components.
Qed.

Lemma qmul_real (q : Quaternion) (c : Scalar) :
  qmul q (mkQuaternion c 0 0 0) = qscale c q.
Proof.
  destruct q as [w x y z]. unfold qmul, qscale; simpl. quaternion_components.
Qed.

Lemma qscale_1 (q : Quaternion) : qscale 1 q = q.
Proof.
  destruct q as [w x y z]. unfold qscale; simpl. quaternion_components.
Qed.

Lemma vec_zero_real (r : Quaternion) :
  vec r = Vector3_Zero -> r = mkQuaternion (qw r) 0 0 0.
Proof.
  destruct r as [w x y z]. unfold vec, Vector3_Zero; simpl.
  intro H. injection H as -> -> ->. reflexivity.
Qed.

Lemma vec_conjugate_qscale (q : Quaternion) (c : Scalar) :
  vec (qmul (conjugate q) (qscale c q)) = Vector3_Zero.
Proof.
  destruct q as [w x y z]. unfold vec, qmul, conjugate, qscale, Vector3_Zero; simpl.
  apply f_equal3; change Scalar with Qc; ring.
Qed.

Section OrientationPriorFurther.

Context {eigen : Eigen}.

Import G2o.

(** X14.  When the expected orientation [q_exp] is a unit quaternion, the
    error computed by [computeError] is the zero vector exactly when the
    quaternion of the vertex is a scalar multiple of [q_exp]: in
    particular both [q_exp] and its opposite, which stand for the same
    rotation, give zero error. *)
Theorem orientation_prior_zero_error_iff (base : EdgeOrientationPrior) (m : Quaternion)
    (s : Transform) (v : VertexSE3) :
  let edge := setVertex0 (EdgeOrientationPrior_new base m s) v in
  let q_exp := Quaternion_of_Matrix3 (linear (rotate (inverse s) m)) in
  let q_cur := Quaternion_of_Matrix3 (linear (estimate v)) in
  squaredNorm q_exp = 1 ->
  (error_after (computeError edge) = Some Vector3_Zero
   <-> exists c, q_cur = qscale c q_exp).
Proof.
  cbv zeta. intro Hunit.
  set (q_exp := Quaternion_of_Matrix3 (linear (rotate (inverse s) m))) in *.
  set (q_cur := Quaternion_of_Matrix3 (linear (estimate v))).
  change (error_after (computeError (setVertex0 (EdgeOrientationPrior_new base m s) v)))
    with (Some (vec (qmul (qinverse q_exp) q_cur))).
  rewrite (qinverse_unit Hunit).
  split.
  - intro H.
    assert (Hv : vec (qmul (conjugate q_exp) q_cur) = Vector3_Zero) by congruence.
    clear H. rename Hv into H.
    exists (qw (qmul (conjugate q_exp) q_cur)).
    rewrite <- qmul_real, <- (vec_zero_real H), qmul_conjugate_cancel, Hunit.
    symmetry. apply qscale_1.
  - intros [c ->]. f_equal. apply vec_conjugate_qscale.
Qed.

End OrientationPriorFurther.

(** ** The roles of the two clouds in a registration *)

Section Roles.

Context {pcl : PCL}.

(** C5.  For every registration run, that is every [align] that passes
    the size test, GICP and NDT alike: [align] makes exactly one
    registration call; the cloud it passes as the library's target input
    is the pose-graph source cloud, and the cloud it passes as the
    library's source input is the pose-graph target cloud.  For NDT, and
    for GICP with PCL 1.8.1 or later, the target cloud is passed as it is,
    together with the guess.  For GICP with an older PCL the target cloud
    is passed already moved by the guess, no guess is passed, and the
    guess is composed onto the library's final transformation.  In both
    cases a returned transform carries the pose-graph target cloud to where
    the library's final transformation carried its source input, so that,
    when the library aligns its source input onto its target input, the
    returned transform aligns the pose-graph target cloud onto the
    pose-graph source cloud: it is the transform of the edge from source to
    target.  This last part is exact in the arithmetic of the model. *)
Theorem registration_roles_in_every_branch (source target : PointCloudMeasurement)
    (guess : Transform) (config : RegistrationParameters) :
  let cs := getPointCloud source in
  let ct := getPointCloud target in
  let final := getFinalTransformation (registration_of config cs ct guess) in
  too_few_points cs ct = false ->
  exists filter_calls registration input_source,
    calls (align source target guess config) = filter_calls ++ [registration]
    /\ registrations filter_calls = []
    /\ registration_inputs registration = Some (input_source, cs)
    /\ match registration_algorithm config with
       | GICP =>
           if PCL_VERSION_before_1_8_1
           then input_source = transformPointCloud ct guess
                /\ registration = CallGICP (gicp_settings config) input_source cs None
           else input_source = ct
                /\ registration = CallGICP (gicp_settings config) ct cs (Some guess)
       | NDT =>
           input_source = ct
           /\ registration = CallNDT (ndt_settings config) ct cs guess
       end
    /\ forall result,
         outcome (align source target guess config) = Returns result ->
         result = match registration_algorithm config with
                  | GICP =>
                      if PCL_VERSION_before_1_8_1 then (final * guess)%tf else final
                  | NDT => final
                  end
         /\ transformPointCloud ct result = transformPointCloud input_source final
         /\ (transformPointCloud input_source final = cs ->
             transformPointCloud ct result = cs).
Proof.
  cbv zeta. intro Hfew. rewrite align_cases. cbv zeta. rewrite Hfew.
  exists (density_calls config (getPointCloud source) (getPointCloud target)),
         (registration_call config (getPointCloud source) (getPointCloud target) guess),
         (library_source_input config (getPointCloud target) guess).
  split; [reflexivity |].
  split; [apply density_calls_no_registration |].
  split.
  { unfold registration_call, registration_inputs, library_source_input.
    destruct (registration_algorithm config); reflexivity. }
  split.
  { unfold registration_call, library_source_input.
    destruct (registration_algorithm config);
      [destruct PCL_VERSION_before_1_8_1 |]; split; reflexivity. }
  intros result Hres. simpl in Hres.
  destruct (rejectedb _ _); [discriminate |].
  injection Hres as <-.
  assert (Hmove :
    transformPointCloud (getPointCloud target)
      (registration_result config
         (registration_of config (getPointCloud source) (getPointCloud target) guess)
         guess)
    = transformPointCloud (library_source_input config (getPointCloud target) guess)
        (getFinalTransformation
           (registration_of config (getPointCloud source) (getPointCloud target) guess)))
    by apply accepted_result_moves_target.
  split; [reflexivity |].
  split; [exact Hmove |].
  intro Haligned. now rewrite Hmove.
Qed.

End Roles.

(** ** The further properties on concrete inputs *)

Module MoreRuns.

Import Reference MoreSamples.

Ltac same_rational := apply Qc_decomp; vm_compute; reflexivity.

Lemma quarter_turn_isometry : is_isometry quarter_turn.
Proof.
  unfold is_isometry. vm_compute.
  apply f_equal3; apply f_equal3; same_rational.
Defined.

Lemma getAccumulatedCloud_Permutation_run :
  Permutation [vertex_a; vertex_b; vertex_empty] [vertex_empty; vertex_b; vertex_a]
  /\ exists c',
       outcome (getAccumulatedCloud [vertex_empty; vertex_b; vertex_a]) = Returns c'
       /\ Permutation (flat_map cloud_in_map (rev [vertex_a; vertex_b; vertex_empty])) c'.
Proof.
  assert (H : Permutation [vertex_a; vertex_b; vertex_empty]
                          [vertex_empty; vertex_b; vertex_a]).
  { apply Permutation_rev. }
  split; [exact H |].
  exact (proj2 (@getAccumulatedCloud_Permutation _ _ H) _ eq_refl).
Defined.

Lemma getAccumulatedCloud_app_run :
  outcome (getAccumulatedCloud [vertex_a]) = Returns (cloud_in_map vertex_a)
  /\ outcome (getAccumulatedCloud [vertex_b; vertex_empty])
     = Returns (cloud_in_map vertex_empty ++ cloud_in_map vertex_b)
  /\ outcome (getAccumulatedCloud ([vertex_a] ++ [vertex_b; vertex_empty]))
     = Returns ((cloud_in_map vertex_empty ++ cloud_in_map vertex_b)
                ++ cloud_in_map vertex_a).
Proof.
  assert (H1 : outcome (getAccumulatedCloud [vertex_a])
               = Returns (cloud_in_map vertex_a)) by reflexivity.
  assert (H2 : outcome (getAccumulatedCloud [vertex_b; vertex_empty])
               = Returns (cloud_in_map vertex_empty ++ cloud_in_map vertex_b))
    by reflexivity.
  split; [exact H1 | split; [exact H2 |]].
  exact (@getAccumulatedCloud_app [vertex_a] [vertex_b; vertex_empty] _ _ H1 H2).
Defined.

Lemma getAccumulatedCloud_size_run :
  outcome (getAccumulatedCloud [vertex_a; vertex_b])
  = Returns (cloud_in_map vertex_b ++ cloud_in_map vertex_a)
  /\ List.length (cloud_in_map vertex_b ++ cloud_in_map vertex_a)
     = list_sum (map cloud_size [vertex_a; vertex_b]).
Proof.
  assert (H : outcome (getAccumulatedCloud [vertex_a; vertex_b])
              = Returns (cloud_in_map vertex_b ++ cloud_in_map vertex_a)) by reflexivity.
  split; [exact H |].
  exact (@getAccumulatedCloud_size [vertex_a; vertex_b] _ H).
Defined.

Lemma createCombinedMeasurement_result_run :
  (forall v, In v [vertex_a; vertex_b] -> is_point_cloud (measurement v) = true)
  /\ succeeds (createCombinedMeasurement (sample_sensor 1 GICP 0) [vertex_a; vertex_b]
                 quarter_turn).
Proof.
  assert (H : forall v, In v [vertex_a; vertex_b] -> is_point_cloud (measurement v) = true).
  { intros v [<- | [<- | []]]; reflexivity. }
  split; [exact H |].
  eexists.
  rewrite (proj2 (@createCombinedMeasurement_result (sample_sensor 1 GICP 0)
                    [vertex_a; vertex_b] quarter_turn) H).
  reflexivity.
Defined.

Lemma createCombinedMeasurement_round_trip_run :
  is_isometry quarter_turn
  /\ exists m,
       outcome (createCombinedMeasurement (sample_sensor 1 GICP 0) [vertex_a; vertex_b]
                  quarter_turn) = Returns m
       /\ getAccumulatedCloud [mkVertexObject "patch" quarter_turn m]
          = getAccumulatedCloud [vertex_a; vertex_b].
Proof.
  split; [exact quarter_turn_isometry |].
  eexists. split; [reflexivity |].
  exact (@createCombinedMeasurement_round_trip (sample_sensor 1 GICP 0)
           [vertex_a; vertex_b] quarter_turn _ "patch" quarter_turn_isometry eq_refl).
Defined.

Lemma buildMap_without_points_run :
  (forall v, In v [vertex_empty; vertex_empty] ->
     is_point_cloud (measurement v) = true /\ cloud_size v = 0%nat)
  /\ buildMap (pcl := recent_pcl) (sample_sensor 1 GICP 0) [vertex_empty; vertex_empty]
     = ([], Returns []).
Proof.
  assert (H : forall v, In v [vertex_empty; vertex_empty] ->
                is_point_cloud (measurement v) = true /\ cloud_size v = 0%nat).
  { intros v [<- | [<- | []]]; split; reflexivity. }
  split; [exact H |].
  exact (@buildMap_without_points recent_pcl (sample_sensor 1 GICP 0)
           [vertex_empty; vertex_empty] H).
Defined.

Lemma buildMap_failures_run :
  (exists v, In v [vertex_a; vertex_imu] /\ is_point_cloud (measurement v) = false)
  /\ fails_with (buildMap (pcl := recent_pcl) (sample_sensor 1 GICP 0)
                   [vertex_a; vertex_imu])
                BadMeasurementType.
Proof.
  assert (H : exists v, In v [vertex_a; vertex_imu]
                        /\ is_point_cloud (measurement v) = false).
  { exists vertex_imu. split; [right; left; reflexivity | reflexivity]. }
  split; [exact H |].
  exact (proj2 (proj1 (@buildMap_failures recent_pcl (sample_sensor 1 GICP 0)
                         [vertex_a; vertex_imu])) H).
Defined.

Lemma createConstraint_BadMeasurementType_run :
  is_point_cloud (IsPointCloud scan) && is_point_cloud (measurement vertex_imu) = false
  /\ fails_with (createConstraint (pcl := recent_pcl) (eigen := eigen)
                   (sample_sensor 1 GICP 0) (IsPointCloud scan) (measurement vertex_imu)
                   Identity true)
                BadMeasurementType.
Proof.
  split; [reflexivity |].
  exact (proj2 (proj1 (@createConstraint_BadMeasurementType_iff recent_pcl eigen
                         (sample_sensor 1 GICP 0) (IsPointCloud scan)
                         (measurement vertex_imu) Identity true)) eq_refl).
Defined.

Lemma combined_measurements_accepted_run :
  exists m1 m2,
    outcome (createCombinedMeasurement (sample_sensor 1 GICP 0) [vertex_a] Identity)
    = Returns m1
    /\ outcome (createCombinedMeasurement (sample_sensor 1 GICP 0) [vertex_b] Identity)
       = Returns m2
    /\ ~ fails_with (createConstraint (pcl := recent_pcl) (eigen := eigen)
                       (sample_sensor 1 GICP 0) m1 m2 Identity true)
                    BadMeasurementType.
Proof.
  eexists. eexists. split; [reflexivity | split; [reflexivity |]].
  exact (@combined_measurements_accepted recent_pcl eigen (sample_sensor 1 GICP 0)
           (sample_sensor 1 GICP 0) (sample_sensor 1 GICP 0) [vertex_a] [vertex_b]
           Identity Identity _ _ Identity true eq_refl eq_refl).
Defined.

Lemma createConstraint_returns_odometry_run :
  is_isometry (getSensorPose (IsPointCloud mounted_scan))
  /\ outcome (align (pcl := echo_pcl) mounted_scan mounted_scan mounted_guess
                (mFineConfiguration (sample_sensor 1 GICP 0)))
     = Returns mounted_guess
  /\ exists c,
       outcome (createConstraint (pcl := echo_pcl) (eigen := eigen)
                  (sample_sensor 1 GICP 0) (IsPointCloud mounted_scan)
                  (IsPointCloud mounted_scan) Identity false) = Returns c
       /\ constraint_transform c = Identity.
Proof.
  assert (H : outcome (align (pcl := echo_pcl) mounted_scan mounted_scan mounted_guess
                         (mFineConfiguration (sample_sensor 1 GICP 0)))
              = Returns mounted_guess).
  { vm_compute. reflexivity. }
  split; [exact quarter_turn_isometry | split; [exact H |]].
  exact (@createConstraint_returns_odometry echo_pcl eigen
           (sample_sensor 1 GICP 0) mounted_scan mounted_scan Identity
           quarter_turn_isometry quarter_turn_isometry H).
Defined.

Lemma Legacy_calculateTransform_outcomes_run :
  let sensor := Legacy.mkPointCloudSensor (sample_parameters GICP 1)
                                          (sample_parameters GICP 1) in
  let empty := sample_cloud 0 Identity in
  let r := legacy_registration (pcl := old_pcl) (sample_parameters GICP 1)
             (getPointCloud empty) (getPointCloud empty)
             (inverse Identity * Identity * Identity)%tf in
  (hasConverged r = true
   /\ (getFitnessScore r Legacy.numeric_limits_double_max
       <= max_fitness_score (sample_parameters GICP 1))%Qc)
  /\ succeeds (Legacy.calculateTransform (pcl := old_pcl) sensor
                 (IsPointCloud empty) (IsPointCloud empty) Identity false).
Proof.
  cbv zeta.
  assert (H : hasConverged
                (legacy_registration (pcl := old_pcl) (sample_parameters GICP 1)
                   (getPointCloud (sample_cloud 0 Identity))
                   (getPointCloud (sample_cloud 0 Identity))
                   (inverse Identity * Identity * Identity)%tf) = true
              /\ (getFitnessScore
                    (legacy_registration (pcl := old_pcl) (sample_parameters GICP 1)
                       (getPointCloud (sample_cloud 0 Identity))
                       (getPointCloud (sample_cloud 0 Identity))
                       (inverse Identity * Identity * Identity)%tf)
                    Legacy.numeric_limits_double_max
                  <= max_fitness_score (sample_parameters GICP 1))%Qc).
  { split; [reflexivity | vm_compute; discriminate]. }
  split; [exact H |].
  exact (proj2 (proj2 (proj2 (proj2
           (@Legacy_calculateTransform_outcomes old_pcl
              (Legacy.mkPointCloudSensor (sample_parameters GICP 1)
                                         (sample_parameters GICP 1))
              (sample_cloud 0 Identity) (sample_cloud 0 Identity) Identity false)))) H).
Defined.

Lemma orientation_prior_zero_error_iff_run :
  let edge :=
    G2o.setVertex0
      (G2o.EdgeOrientationPrior_new blank_edge Quaternion_Identity Identity)
      (G2o.mkVertexSE3 Identity) in
  squaredNorm
    (Quaternion_of_Matrix3 (Eigen := eigen)
       (linear (rotate (inverse Identity) Quaternion_Identity))) = 1
  /\ (exists c,
        Quaternion_of_Matrix3 (Eigen := eigen) (linear (G2o.estimate (G2o.mkVertexSE3 Identity)))
        = qscale c
            (Quaternion_of_Matrix3 (Eigen := eigen)
               (linear (rotate (inverse Identity) Quaternion_Identity))))
  /\ error_after (G2o.computeError (eigen := eigen) edge) = Some Vector3_Zero.
Proof.
  cbv zeta.
  assert (Hunit : squaredNorm
                    (Quaternion_of_Matrix3 (Eigen := eigen)
                       (linear (rotate (inverse Identity) Quaternion_Identity))) = 1).
  { same_rational. }
  assert (Hmul : exists c,
             Quaternion_of_Matrix3 (Eigen := eigen)
               (linear (G2o.estimate (G2o.mkVertexSE3 Identity)))
             = qscale c
                 (Quaternion_of_Matrix3 (Eigen := eigen)
                    (linear (rotate (inverse Identity) Quaternion_Identity)))).
  { exists 1. vm_compute. apply f_equal4; same_rational. }
  split; [exact Hunit | split; [exact Hmul |]].
  exact (proj2 (@orientation_prior_zero_error_iff eigen blank_edge
                  Quaternion_Identity Identity (G2o.mkVertexSE3 Identity) Hunit) Hmul).
Defined.

(** The scan moved by one unit along x and back. *)
Lemma scan_shift_unshift :
  transformPointCloud (transformPointCloud (getPointCloud scan) (translate 1 0 0))
                      (translate (-1) 0 0)
  = getPointCloud scan.
Proof.
  change (getPointCloud scan) with (repeat origin 100).
  unfold transformPointCloud. rewrite !map_repeat.
  apply (f_equal (fun p => repeat p 100)).
  vm_compute. apply f_equal3; same_rational.
Qed.

(** GICP against an old PCL whose final transformation undoes the shift by
    the guess: the library receives the shifted target scan and the source
    scan, no guess, and the transform returned carries the target scan
    onto the source scan. *)
Lemma registration_roles_in_every_branch_run :
  let guess := translate 1 0 0 in
  let config := sample_parameters GICP 0 in
  let run := align (pcl := unshift_pcl) scan scan guess config in
  let final := translate (-1) 0 0 in
  too_few_points (getPointCloud scan) (getPointCloud scan) = false
  /\ outcome run = Returns (final * guess)%tf
  /\ exists filter_calls registration input_source,
       calls run = filter_calls ++ [registration]
       /\ registration_inputs registration = Some (input_source, getPointCloud scan)
       /\ input_source = transformPointCloud (getPointCloud scan) guess
       /\ registration
          = CallGICP (gicp_settings config) input_source (getPointCloud scan) None
       /\ transformPointCloud input_source final = getPointCloud scan
       /\ transformPointCloud (getPointCloud scan) (final * guess)%tf = getPointCloud scan.
Proof.
  cbv zeta.
  assert (Hfew : too_few_points (getPointCloud scan) (getPointCloud scan) = false)
    by reflexivity.
  assert (Hout : outcome (align (pcl := unshift_pcl) scan scan (translate 1 0 0)
                            (sample_parameters GICP 0))
                 = Returns (translate (-1) 0 0 * translate 1 0 0)%tf).
  { vm_compute. reflexivity. }
  split; [exact Hfew | split; [exact Hout |]].
  destruct (@registration_roles_in_every_branch unshift_pcl scan scan (translate 1 0 0)
              (sample_parameters GICP 0) Hfew)
    as (filter_calls & registration & input_source
        & Hcalls & _ & Hinputs & Hbranch & Hresult).
  change (input_source = transformPointCloud (getPointCloud scan) (translate 1 0 0)
          /\ registration
             = CallGICP (gicp_settings (sample_parameters GICP 0)) input_source
                        (getPointCloud scan) None) in Hbranch.
  destruct Hbranch as [Hsource Hregistration].
  destruct (Hresult _ Hout) as (_ & _ & Haligned).
  change (getFinalTransformation
            (registration_of (pcl := unshift_pcl) (sample_parameters GICP 0)
               (getPointCloud scan) (getPointCloud scan) (translate 1 0 0)))
    with (translate (-1) 0 0) in Haligned.
  assert (Hlibrary : transformPointCloud input_source (translate (-1) 0 0)
                     = getPointCloud scan).
  { rewrite Hsource. exact scan_shift_unshift. }
  exists filter_calls, registration, input_source.
  split; [exact Hcalls |].
  split; [exact Hinputs |].
  split; [exact Hsource |].
  split; [exact Hregistration |].
  split; [exact Hlibrary |].
  exact (Haligned Hlibrary).
Defined.

End MoreRuns.
